(** * E-commerce backend: catalog listing, carts and product broadcast

    A shallow embedding of the route handlers of the backend
    (routes/products, routes/carts, routes/views and the socket handlers of
    app.js) together with the properties stated about them.

    Conventions of the embedding:
    - a JavaScript string is a [string] whose characters are the code units
      below 256 (Latin-1); the white space and the case mapping of that
      range are written out;
    - a query parameter is an [option string]: [None] is [undefined].
      Repeated or bracketed parameters, which the query parser turns into
      arrays and objects, are outside the model;
    - an integer-valued Number (a limit, a page, a quantity) is a [Z];
      [NaN] is [None] where it can arise.  The integers are exact, as they
      are in JavaScript below 2^53 in magnitude; negative zero is
      identified with zero (both are falsy and compare equal);
    - a price, and the arithmetic of the cart view on it, is binary64;
    - the database is an in-memory value threaded through the handlers; a
      handler is one atomic reaction, and the store itself does not fail.
      The Cart and Product models and the pagination plugin are not among
      the sources: what the handlers need of them is modelled from the
      specification and marked so. *)

From Stdlib Require Import ZArith Ascii String List Bool Lia.
From Stdlib Require Import DecimalString DecimalPos SpecFloat.
From stdpp Require Import base option list strings gmap sorting.

Local Open Scope string_scope.
Local Open Scope Z_scope.

(** ** JavaScript primitives *)

Module JS.

(** WhiteSpace and LineTerminator code units below 256: TAB, LF, VT, FF,
    CR, SP and NBSP. *)
Definition isWhiteSpace (c : ascii) : bool :=
  let n := nat_of_ascii c in
  ((9 <=? n) && (n <=? 13))%nat || (n =? 32)%nat || (n =? 160)%nat.

Fixpoint trimStart (s : string) : string :=
  match s with
  | EmptyString => EmptyString
  | String c r => if isWhiteSpace c then trimStart r else s
  end.

Fixpoint trimEnd (s : string) : string :=
  match s with
  | EmptyString => EmptyString
  | String c r =>
      match trimEnd r with
      | EmptyString => if isWhiteSpace c then EmptyString else String c EmptyString
      | r' => String c r'
      end
  end.

(** [String.prototype.trim] *)
Definition trim (s : string) : string := trimEnd (trimStart s).

(** Lower-case mapping of one code unit: A-Z, and the Latin-1 capitals
    U+00C0-U+00DE except the multiplication sign U+00D7. *)
Definition lowerChar (c : ascii) : ascii :=
  let n := nat_of_ascii c in
  if ((65 <=? n) && (n <=? 90))%nat
     || ((192 <=? n) && (n <=? 222) && negb (n =? 215))%nat
  then ascii_of_nat (n + 32) else c.

(** [String.prototype.toLowerCase] *)
Fixpoint toLowerCase (s : string) : string :=
  match s with
  | EmptyString => EmptyString
  | String c r => String (lowerChar c) (toLowerCase r)
  end.

(** Truthiness of a string value that may be [undefined]. *)
Definition truthy (v : option string) : bool :=
  match v with
  | None => false
  | Some s => negb (String.eqb s "")
  end.

(** Value of a digit in the given radix, [None] for any other code unit. *)
Definition digitValue (radix : Z) (c : ascii) : option Z :=
  let n := Z.of_nat (nat_of_ascii c) in
  let v := if (48 <=? n) && (n <=? 57) then n - 48
           else if (97 <=? n) && (n <=? 122) then n - 87
           else if (65 <=? n) && (n <=? 90) then n - 55
           else radix in
  if v <? radix then Some v else None.

(** The longest prefix of radix digits, read as an integer; [None] when
    that prefix is empty. *)
Fixpoint digits (radix : Z) (acc : option Z) (s : string) : option Z :=
  match s with
  | EmptyString => acc
  | String c r =>
      match digitValue radix c with
      | Some d => digits radix (Some (radix * default 0 acc + d)) r
      | None => acc
      end
  end.

(** [parseInt(string)] with no radix argument: leading white space is
    skipped, a sign is read, a [0x] or [0X] prefix selects radix 16, and
    the longest digit prefix is the result; [None] is [NaN]. *)
Definition parseIntStr (s : string) : option Z :=
  let s1 := trimStart s in
  let '(sign, s2) :=
    match s1 with
    | String "-" r => (-1, r)
    | String "+" r => (1, r)
    | _ => (1, s1)
    end in
  let '(radix, s3) :=
    match s2 with
    | String "0" (String "x" r) => (16, r)
    | String "0" (String "X" r) => (16, r)
    | _ => (10, s2)
    end in
  (fun m => sign * m) <$> digits radix None s3.

(** [parseInt(v)] for a query parameter: [undefined] is first turned into
    the string "undefined", which has no digit prefix. *)
Definition parseInt (v : option string) : option Z :=
  match v with
  | None => parseIntStr "undefined"
  | Some s => parseIntStr s
  end.

(** [x || d] for a Number [x]: [NaN] and [0] are falsy. *)
Definition orDefault (x : option Z) (d : Z) : Z :=
  match x with
  | Some n => if n =? 0 then d else n
  | None => d
  end.

End JS.

(** ** Filter/pagination resolver of the listing endpoints *)

(** The filter object handed to [Product.paginate]: each key is either
    absent or set. *)
Record Filter := mkFilter {
  f_category : option string;
  f_status : option bool
}.

Inductive SortSpec := PriceAsc | PriceDesc.

(** The query parameters the listing handlers read from [req.query]. *)
Record Query := mkQuery {
  q_limit : option string;
  q_page : option string;
  q_sort : option string;
  q_query : option string;
  q_category : option string;
  q_status : option string
}.

Record ListingSpec := mkListingSpec {
  ls_filter : Filter;
  ls_sort : option SortSpec;
  ls_page : Z;
  ls_limit : Z
}.

Definition emptyFilter : Filter := mkFilter None None.

Definition emptyQuery : Query := mkQuery None None None None None None.

(** GET /api/products (routes/products) *)
Module Api.

Definition limit (q : Query) : Z :=
  Z.max 1 (JS.orDefault (JS.parseInt (q_limit q)) 10).

Definition page (q : Query) : Z :=
  Z.max 1 (JS.orDefault (JS.parseInt (q_page q)) 1).

(** The three [if] statements that fill [filter], in source order. *)
Definition buildFilter (q : Query) : Filter :=
  let f0 := emptyFilter in
  let f1 :=
    if JS.truthy (q_category q)
    then mkFilter (JS.trim <$> q_category q) (f_status f0)
    else f0 in
  let f2 :=
    match q_status q with
    | Some st =>
        mkFilter (f_category f1)
          (Some (String.eqb st "true" || String.eqb st "1" || String.eqb st "yes"))
    | None => f1
    end in
  match q_query q with
  | Some qs =>
      if JS.truthy (Some qs) && negb (JS.truthy (q_category q))
         && negb (bool_decide (is_Some (q_status q)))
      then
        let queryLower := JS.toLowerCase (JS.trim qs) in
        if String.eqb queryLower "true" || String.eqb queryLower "false"
           || String.eqb queryLower "disponible"
           || String.eqb queryLower "no disponible"
        then mkFilter (f_category f2)
               (Some (String.eqb queryLower "true"
                      || String.eqb queryLower "disponible"))
        else mkFilter (Some (JS.trim qs)) (f_status f2)
      else f2
  | None => f2
  end.

Definition sortSpec (q : Query) : option SortSpec :=
  match q_sort q with
  | Some s =>
      if String.eqb s "asc" then Some PriceAsc
      else if String.eqb s "desc" then Some PriceDesc
      else None
  | None => None
  end.

Definition resolve (q : Query) : ListingSpec :=
  mkListingSpec (buildFilter q) (sortSpec q) (page q) (limit q).

End Api.

(** GET /products (routes/views) *)
Module View.

Definition limit (q : Query) : Z := JS.orDefault (JS.parseInt (q_limit q)) 10.

Definition page (q : Query) : Z := JS.orDefault (JS.parseInt (q_page q)) 1.

Definition buildFilter (q : Query) : Filter :=
  let f0 := emptyFilter in
  let f1 :=
    if JS.truthy (q_category q)
    then mkFilter (JS.trim <$> q_category q) (f_status f0)
    else f0 in
  let f2 :=
    match q_status q with
    | Some st =>
        mkFilter (f_category f1)
          (Some (String.eqb st "true" || String.eqb st "1" || String.eqb st "yes"))
    | None => f1
    end in
  match q_query q with
  | Some qs =>
      if JS.truthy (Some qs) && negb (JS.truthy (q_category q))
         && negb (bool_decide (is_Some (q_status q)))
      then
        let queryLower := JS.toLowerCase (JS.trim qs) in
        if String.eqb queryLower "true" || String.eqb queryLower "false"
           || String.eqb queryLower "disponible"
           || String.eqb queryLower "no disponible"
        then mkFilter (f_category f2)
               (Some (String.eqb queryLower "true"
                      || String.eqb queryLower "disponible"))
        else mkFilter (Some (JS.trim qs)) (f_status f2)
      else f2
  | None => f2
  end.

Definition sortSpec (q : Query) : option SortSpec :=
  match q_sort q with
  | Some s =>
      if String.eqb s "asc" then Some PriceAsc
      else if String.eqb s "desc" then Some PriceDesc
      else None
  | None => None
  end.

Definition resolve (q : Query) : ListingSpec :=
  mkListingSpec (buildFilter q) (sortSpec q) (page q) (limit q).

End View.

(** ** JSON values and binary64 numbers *)

(** A value of a parsed request body.  A JSON number is carried here when
    it is integer-valued (and below 10^21 in magnitude, so that it prints as
    its decimal digits); fractional numbers, arrays and objects are not
    needed by the handlers below. *)
Inductive jsval :=
  | JUndefined
  | JNull
  | JBool (b : bool)
  | JInt (n : Z)
  | JStr (s : string).

Module JSVal.

(** [ToString] *)
Definition toString (v : jsval) : string :=
  match v with
  | JUndefined => "undefined"
  | JNull => "null"
  | JBool true => "true"
  | JBool false => "false"
  | JInt n => DecimalString.NilZero.string_of_int (Z.to_int n)
  | JStr s => s
  end.

(** [parseInt(v)]: the argument is converted to a string first. *)
Definition parseInt (v : jsval) : option Z := JS.parseIntStr (toString v).

(** [Number.isInteger(v)] *)
Definition isInteger (v : jsval) : bool :=
  match v with
  | JInt _ => true
  | _ => false
  end.

End JSVal.

(** Binary64 Numbers, with the operations of IEEE 754 as the Standard
    Library specifies them. *)
Module Double.

Definition double := spec_float.

Definition prec : Z := 53.
Definition emax : Z := 1024.

Definition mul (x y : double) : double := SFmul prec emax x y.
Definition add (x y : double) : double := SFadd prec emax x y.

(** The Number nearest to an integer. *)
Definition ofZ (n : Z) : double := binary_normalize prec emax n 0 false.

Definition zero : double := S754_zero false.

(** The string returned by [toFixed(2)], by its shape: the text of a
    non-finite Number, a sign with a number of hundredths, or, from 10^21
    on, the text [Number::toString] gives to the Number itself. *)
Inductive Fixed2 :=
  | FxNaN
  | FxInfinity (neg : bool)
  | FxDecimal (neg : bool) (hundredths : Z)
  | FxToString (neg : bool) (x : double).

(** The integer [n] for which [n / 100] is closest to the nonnegative
    [m * 2^e], the larger one when two are as close. *)
Definition nearestHundredths (m : positive) (e : Z) : Z :=
  match e with
  | Zneg p => (2 * (100 * Zpos m) + 2 ^ Zpos p) / (2 * 2 ^ Zpos p)
  | _ => 100 * Zpos m * 2 ^ e
  end.

(** [10^21 <= m * 2^e] *)
Definition atLeast1e21 (m : positive) (e : Z) : bool :=
  match e with
  | Zneg p => 10 ^ 21 * 2 ^ Zpos p <=? Zpos m
  | _ => 10 ^ 21 <=? Zpos m * 2 ^ e
  end.

(** [Number.prototype.toFixed] with [fractionDigits = 2]. *)
Definition toFixed2 (x : double) : Fixed2 :=
  match x with
  | S754_nan => FxNaN
  | S754_infinity s => FxInfinity s
  | S754_zero _ => FxDecimal false 0
  | S754_finite s m e =>
      if atLeast1e21 m e then FxToString s (S754_finite false m e)
      else FxDecimal s (nearestHundredths m e)
  end.

(** The digits of a [toFixed(2)] result with a decimal point before the
    last two, padded with zeros to three digits. *)
Definition renderHundredths (n : Z) : string :=
  let ds := DecimalString.NilZero.string_of_uint (N.to_uint (Z.to_N n)) in
  let padded :=
    match String.length ds with
    | 1%nat => "00" ++ ds
    | 2%nat => "0" ++ ds
    | _ => ds
    end in
  let k := (String.length padded - 2)%nat in
  String.substring 0 k padded ++ "." ++ String.substring k 2 padded.

(** The text of a [toFixed(2)] result, where it does not need the
    shortest-digits algorithm of [Number::toString]. *)
Definition render (f : Fixed2) : option string :=
  match f with
  | FxNaN => Some "NaN"
  | FxInfinity false => Some "Infinity"
  | FxInfinity true => Some "-Infinity"
  | FxDecimal neg n => Some ((if neg then "-" else "") ++ renderHundredths n)
  | FxToString _ _ => None
  end.

(** [parseFloat] of a [toFixed(2)] result: the Number nearest to the
    decimal, and the Number itself where the text came from
    [Number::toString]. *)
Definition parseFloat (f : Fixed2) : double :=
  match f with
  | FxNaN => S754_nan
  | FxInfinity s => S754_infinity s
  | FxDecimal neg n =>
      match n with
      | Zpos p => SFdiv prec emax (S754_finite neg p 0) (S754_finite false 100 0)
      | _ => S754_zero neg
      end
  | FxToString neg x => if neg then SFopp x else x
  end.

End Double.

(** ** Documents and collections *)

(** The fields of a product that its schema declares. *)
Record ProductFields := mkProductFields {
  pf_title : string;
  pf_description : string;
  pf_code : string;
  pf_price : Double.double;
  pf_status : bool;
  pf_stock : Z;
  pf_category : string;
  pf_thumbnails : list string
}.

(** A stored product: identifier, declared fields and the two timestamps
    the store maintains. *)
Record Product := mkProduct {
  p_id : string;
  p_fields : ProductFields;
  p_createdAt : Z;
  p_updatedAt : Z
}.

(** A line item of a cart: [{ product: ObjectId, quantity: Number }]. *)
Record LineItem := mkLineItem {
  li_product : string;
  li_quantity : Z
}.

(** The [products] array of a cart document. *)
Abbreviation Cart := (list LineItem).

(** The two collections.  Products are kept in natural (insertion) order;
    carts are only ever looked up by identifier. *)
Record Db := mkDb {
  db_products : list Product;
  db_carts : gmap string Cart
}.

Inductive Error :=
  | CastError
  | ValidationError
  | DuplicateKeyError
  | InvalidQuantityError
  | ProductNotFoundError
  | ProductNotFoundInCartError.

(** A small error monad for the model methods, which throw. *)
Abbreviation Result := (sum Error).

Definition bindR {A B} (m : Result A) (k : A → Result B) : Result B :=
  match m with
  | inl e => inl e
  | inr a => k a
  end.

Notation "'let*' x ':=' m 'in' k" := (bindR m (fun x => k))
  (at level 10, x name, m at level 100, k at level 200).

(** A line item after [populate('products.product')]: the reference is
    replaced by the product document, or by [null] when no product has
    that identifier. *)
Record PopulatedItem := mkPopulatedItem {
  pi_product : option Product;
  pi_quantity : Z
}.

Definition populate (catalog : list Product) (cart : Cart) : list PopulatedItem :=
  map (fun li =>
         mkPopulatedItem
           (List.find (fun p => String.eqb (p_id p) (li_product li)) catalog)
           (li_quantity li))
      cart.

Module Store.
Section WithIdFormat.

(** The store's identifier format: [findById] throws a cast error on a
    string that is not of this format. *)
Variable isObjectId : string → bool.

(** [Product.findById(id)] *)
Definition findProduct (catalog : list Product) (id : string)
  : Result (option Product) :=
  if isObjectId id
  then inr (List.find (fun p => String.eqb (p_id p) id) catalog)
  else inl CastError.

(** [Cart.findById(id)] *)
Definition findCart (db : Db) (id : string) : Result (option Cart) :=
  if isObjectId id then inr (db_carts db !! id) else inl CastError.

(** [cart.save()] of the cart with identifier [cid]. *)
Definition saveCart (db : Db) (cid : string) (cart : Cart) : Db :=
  mkDb (db_products db) (<[cid := cart]> (db_carts db)).

End WithIdFormat.

(** The usual identifier format, 24 hexadecimal digits; the instance used
    in the examples. *)
Definition hex24 (s : string) : bool :=
  (String.length s =? 24)%nat
  && forallb (fun c => bool_decide (is_Some (JS.digitValue 16 c)))
       (list_ascii_of_string s).

End Store.

(** ** The cart model *)

(** An element of the [products] array of a PUT /api/carts/:cid body. *)
Record ItemInput := mkItemInput {
  ii_product : string;
  ii_quantity : jsval
}.

Module CartModel.
Section Methods.

Variable isObjectId : string → bool.

(** Modelled from the spec: the Cart model (models/Cart.model) is not
    among the sources.  A product identifier must resolve against the
    catalog, else the method fails with ProductNotFoundError. *)
Definition resolveProduct (catalog : list Product) (pid : string)
  : Result Product :=
  let* found := Store.findProduct isObjectId catalog pid in
  match found with
  | Some p => inr p
  | None => inl ProductNotFoundError
  end.

(** Modelled from the spec: if a line item for the product exists its
    quantity is incremented, else a new line item is appended. *)
Fixpoint addLine (pid : string) (q : Z) (items : Cart) : Cart :=
  match items with
  | [] => [mkLineItem pid q]
  | li :: rest =>
      if String.eqb (li_product li) pid
      then mkLineItem (li_product li) (li_quantity li + q) :: rest
      else li :: addLine pid q rest
  end.

(** Modelled from the spec: [addProduct(cart, productId, quantity)]:
    the quantity must be a positive integer, the product must resolve,
    then the line is incremented or appended. *)
Definition addProduct (catalog : list Product) (cart : Cart)
    (pid : string) (q : Z) : Result Cart :=
  if q <? 1 then inl InvalidQuantityError
  else
    let* _ := resolveProduct catalog pid in
    inr (addLine pid q cart).

(** Modelled from the spec: [removeProduct(cart, productId)] removes the
    line item matching the product if present; absence is not an
    error. *)
Definition removeProduct (cart : Cart) (pid : string) : Result Cart :=
  inr (List.filter (fun li => negb (String.eqb (li_product li) pid)) cart).

(** Modelled from the spec: every item of [updateCart] must name a
    product of the catalog and carry a positive integer quantity. *)
Definition validateItem (catalog : list Product) (it : ItemInput)
  : Result LineItem :=
  match ii_quantity it with
  | JInt q =>
      if q <? 1 then inl InvalidQuantityError
      else
        let* _ := resolveProduct catalog (ii_product it) in
        inr (mkLineItem (ii_product it) q)
  | _ => inl InvalidQuantityError
  end.

(** Modelled from the spec: the items are validated in order; the first
    invalid one fails the whole list. *)
Fixpoint validateItems (catalog : list Product) (items : list ItemInput)
  : Result Cart :=
  match items with
  | [] => inr []
  | it :: rest =>
      let* li := validateItem catalog it in
      let* lis := validateItems catalog rest in
      inr (li :: lis)
  end.

(** Modelled from the spec: [updateCart(cart, items)] validates all
    items before it replaces the whole line-item list. *)
Definition updateCart (catalog : list Product) (cart : Cart)
    (items : list ItemInput) : Result Cart :=
  let* lis := validateItems catalog items in
  inr lis.

(** Modelled from the spec: the quantity of the existing line item is
    set, not incremented; [None] when the cart has no such line. *)
Fixpoint setLine (pid : string) (q : Z) (items : Cart) : option Cart :=
  match items with
  | [] => None
  | li :: rest =>
      if String.eqb (li_product li) pid
      then Some (mkLineItem (li_product li) q :: rest)
      else cons li <$> setLine pid q rest
  end.

(** Modelled from the spec: [updateProductQuantity(cart, productId,
    quantity)] sets the quantity of an existing line item and fails
    with ProductNotFoundInCartError when there is none. *)
Definition updateProductQuantity (cart : Cart) (pid : string) (q : Z)
  : Result Cart :=
  if q <? 1 then inl InvalidQuantityError
  else
    match setLine pid q cart with
    | Some cart' => inr cart'
    | None => inl ProductNotFoundInCartError
    end.

(** Modelled from the spec: [clearCart(cart)] removes all line items. *)
Definition clearCart (cart : Cart) : Result Cart := inr [].

End Methods.
End CartModel.

(** ** The cart routes (routes/carts) *)

Inductive CartPayload :=
  | Populated (items : list PopulatedItem)
  | Plain (cart : Cart).

(** HTTP status and the [payload] field of the JSON envelope; an error
    envelope has no payload. *)
Record Response := mkResponse {
  res_status : nat;
  res_payload : option CartPayload
}.

Module CartRoutes.
Section Handlers.

Variable isObjectId : string → bool.

(** POST /api/carts: [new Cart()] saved under the identifier the store
    assigns. *)
Definition createCart (db : Db) (newId : string) : Response * Db :=
  (mkResponse 201 (Some (Plain [])), Store.saveCart db newId []).

(** GET /api/carts/:cid *)
Definition getCart (db : Db) (cid : string) : Response :=
  match Store.findCart isObjectId db cid with
  | inl _ => mkResponse 400 None
  | inr None => mkResponse 404 None
  | inr (Some cart) =>
      mkResponse 200 (Some (Populated (populate (db_products db) cart)))
  end.

(** POST /api/carts/:cid/product/:pid; [bodyQuantity] is
    [req.body.quantity]. *)
Definition postCartProduct (db : Db) (cid pid : string) (bodyQuantity : jsval)
  : Response * Db :=
  let quantity := JS.orDefault (JSVal.parseInt bodyQuantity) 1 in
  if (quantity <? 1) || negb (JSVal.isInteger (JInt quantity))
  then (mkResponse 400 None, db)
  else
    match Store.findCart isObjectId db cid with
    | inl _ => (mkResponse 400 None, db)
    | inr None => (mkResponse 404 None, db)
    | inr (Some cart) =>
        match CartModel.addProduct isObjectId (db_products db) cart pid quantity with
        | inl _ => (mkResponse 400 None, db)
        | inr cart' =>
            (mkResponse 200 (Some (Populated (populate (db_products db) cart'))),
             Store.saveCart db cid cart')
        end
    end.

(** DELETE /api/carts/:cid/products/:pid *)
Definition deleteCartProduct (db : Db) (cid pid : string) : Response * Db :=
  match Store.findCart isObjectId db cid with
  | inl _ => (mkResponse 400 None, db)
  | inr None => (mkResponse 404 None, db)
  | inr (Some cart) =>
      match CartModel.removeProduct cart pid with
      | inl _ => (mkResponse 400 None, db)
      | inr cart' =>
          (mkResponse 200 (Some (Populated (populate (db_products db) cart'))),
           Store.saveCart db cid cart')
      end
  end.

(** PUT /api/carts/:cid; [bodyProducts] is [req.body.products], [None]
    when it is not an array. *)
Definition putCart (db : Db) (cid : string) (bodyProducts : option (list ItemInput))
  : Response * Db :=
  match bodyProducts with
  | None => (mkResponse 400 None, db)
  | Some products =>
      match Store.findCart isObjectId db cid with
      | inl _ => (mkResponse 400 None, db)
      | inr None => (mkResponse 404 None, db)
      | inr (Some cart) =>
          match CartModel.updateCart isObjectId (db_products db) cart products with
          | inl _ => (mkResponse 400 None, db)
          | inr cart' =>
              (mkResponse 200 (Some (Populated (populate (db_products db) cart'))),
               Store.saveCart db cid cart')
          end
      end
  end.

(** PUT /api/carts/:cid/products/:pid; [bodyQuantity] is
    [req.body.quantity]. *)
Definition putCartProduct (db : Db) (cid pid : string) (bodyQuantity : jsval)
  : Response * Db :=
  match bodyQuantity with
  | JInt quantity =>
      if quantity <? 1 then (mkResponse 400 None, db)
      else
        match Store.findCart isObjectId db cid with
        | inl _ => (mkResponse 400 None, db)
        | inr None => (mkResponse 404 None, db)
        | inr (Some cart) =>
            match CartModel.updateProductQuantity cart pid quantity with
            | inl _ => (mkResponse 400 None, db)
            | inr cart' =>
                (mkResponse 200 (Some (Populated (populate (db_products db) cart'))),
                 Store.saveCart db cid cart')
            end
        end
  | _ => (mkResponse 400 None, db)
  end.

(** DELETE /api/carts/:cid *)
Definition deleteCart (db : Db) (cid : string) : Response * Db :=
  match Store.findCart isObjectId db cid with
  | inl _ => (mkResponse 400 None, db)
  | inr None => (mkResponse 404 None, db)
  | inr (Some cart) =>
      match CartModel.clearCart cart with
      | inl _ => (mkResponse 500 None, db)
      | inr cart' => (mkResponse 200 (Some (Plain cart')), Store.saveCart db cid cart')
      end
  end.

End Handlers.
End CartRoutes.

(** ** The cart view (GET /carts/:cid of routes/views) *)

(** An element of [productsWithSubtotal]: the product's own fields, the
    quantity and the subtotal text. *)
Record ViewItem := mkViewItem {
  vi_product : Product;
  vi_quantity : Z;
  vi_subtotal : Double.Fixed2
}.

(** The values handed to the [cart] template. *)
Record CartView := mkCartView {
  cv_cartId : string;
  cv_products : list ViewItem;
  cv_hasProducts : bool;
  cv_total : Double.Fixed2
}.

Inductive ViewResponse :=
  | RenderCart (view : CartView)
  | RenderError (status : nat).

Module CartViewRoute.
Section Handlers.

Variable isObjectId : string → bool.

Definition subtotal (p : Product) (quantity : Z) : Double.Fixed2 :=
  Double.toFixed2 (Double.mul (pf_price (p_fields p)) (Double.ofZ quantity)).

(** [cart.products.filter(item => item.product).map(item => ...)] *)
Definition productsWithSubtotal (items : list PopulatedItem) : list ViewItem :=
  omap (fun item =>
          match pi_product item with
          | Some p => Some (mkViewItem p (pi_quantity item) (subtotal p (pi_quantity item)))
          | None => None
          end)
       items.

(** [reduce((sum, p) => sum + parseFloat(p.subtotal), 0)] *)
Definition sumSubtotals (products : list ViewItem) : Double.double :=
  fold_left (fun sum p => Double.add sum (Double.parseFloat (vi_subtotal p)))
            products Double.zero.

Definition total (products : list ViewItem) : Double.Fixed2 :=
  Double.toFixed2 (sumSubtotals products).

(** GET /carts/:cid *)
Definition getCartView (db : Db) (cid : string) : ViewResponse :=
  match Store.findCart isObjectId db cid with
  | inl _ => RenderError 400
  | inr None => RenderError 404
  | inr (Some cart) =>
      let products := productsWithSubtotal (populate (db_products db) cart) in
      RenderCart
        (mkCartView cid products (0 <? Z.of_nat (length products)) (total products))
  end.

End Handlers.
End CartViewRoute.

(** ** The catalog query and the listing handlers *)

Module Catalog.

(** A product satisfies a filter when it agrees on every key present. *)
Definition matchesFilter (f : Filter) (p : Product) : bool :=
  match f_category f with
  | Some c => String.eqb (pf_category (p_fields p)) c
  | None => true
  end
  && match f_status f with
     | Some b => Bool.eqb (pf_status (p_fields p)) b
     | None => true
     end.

Definition priceLe (p q : Product) : Prop :=
  SFleb (pf_price (p_fields p)) (pf_price (p_fields q)) = true.

#[global] Instance priceLe_dec (p q : Product) : Decision (priceLe p q).
Proof. unfold priceLe. apply _. Defined.

#[global] Instance priceGe_dec (p q : Product) : Decision (flip priceLe p q).
Proof. unfold flip. apply _. Defined.

Definition orderBy (sort : option SortSpec) (ps : list Product) : list Product :=
  match sort with
  | Some PriceAsc => merge_sort priceLe ps
  | Some PriceDesc => merge_sort (flip priceLe) ps
  | None => ps
  end.

(** [ceil(a / b)] for a positive [b]. *)
Definition ceilDiv (a b : Z) : Z := - ((- a) / b).

Record PageResult := mkPageResult {
  pr_docs : list Product;
  pr_totalDocs : Z;
  pr_limit : Z;
  pr_page : Z;
  pr_totalPages : Z;
  pr_hasPrevPage : bool;
  pr_hasNextPage : bool;
  pr_prevPage : option Z;
  pr_nextPage : option Z
}.

(** Modelled from the spec: [Product.paginate] comes from the pagination
    plugin attached in the Product model, neither of which is among the
    sources.  [query(filter, sortSpec, page, limit)] returns the items of
    the page with [totalPages = ceil(totalCount / limit)],
    [hasPrevPage = page > 1], [hasNextPage = page < totalPages], and
    [prevPage]/[nextPage] the respective page numbers or null. *)
Definition paginate (catalog : list Product) (f : Filter)
    (sort : option SortSpec) (page limit : Z) : PageResult :=
  let matched := List.filter (matchesFilter f) catalog in
  let totalDocs := Z.of_nat (length matched) in
  let totalPages := ceilDiv totalDocs limit in
  let hasPrevPage := 1 <? page in
  let hasNextPage := page <? totalPages in
  mkPageResult
    (take (Z.to_nat limit) (drop (Z.to_nat ((page - 1) * limit)) (orderBy sort matched)))
    totalDocs limit page totalPages hasPrevPage hasNextPage
    (if hasPrevPage then Some (page - 1) else None)
    (if hasNextPage then Some (page + 1) else None).

End Catalog.

(** A navigation link, as the parameters appended to its query string, in
    order; the base URL and the percent-encoding are left out. *)
Abbreviation Link := (list (string * string)).

Definition showZ (n : Z) : string := DecimalString.NilZero.string_of_int (Z.to_int n).

Record ListingResponse := mkListingResponse {
  lr_payload : list Product;
  lr_totalPages : Z;
  lr_prevPage : option Z;
  lr_nextPage : option Z;
  lr_page : Z;
  lr_hasPrevPage : bool;
  lr_hasNextPage : bool;
  lr_prevLink : option Link;
  lr_nextLink : option Link;
  lr_totalDocs : Z
}.

Module ProductListing.

(** [buildQueryString(pageNum)] of GET /api/products and
    [buildQueryParams(pageNum)] of GET /products, which read the same. *)
Definition buildQueryString (q : Query) (limit : Z) (pageNum : Z) : Link :=
  [("page", showZ pageNum)]
  ++ (if limit =? 10 then [] else [("limit", showZ limit)])
  ++ (if JS.truthy (q_sort q) then [("sort", default "" (q_sort q))] else [])
  ++ (if JS.truthy (q_query q) then [("query", default "" (q_query q))] else [])
  ++ (if JS.truthy (q_category q) then [("category", default "" (q_category q))] else [])
  ++ (match q_status q with Some st => [("status", st)] | None => [] end).

Definition respond (q : Query) (limit : Z) (result : Catalog.PageResult)
  : ListingResponse :=
  mkListingResponse
    (Catalog.pr_docs result)
    (Catalog.pr_totalPages result)
    (Catalog.pr_prevPage result)
    (Catalog.pr_nextPage result)
    (Catalog.pr_page result)
    (Catalog.pr_hasPrevPage result)
    (Catalog.pr_hasNextPage result)
    (if Catalog.pr_hasPrevPage result
     then buildQueryString q limit <$> Catalog.pr_prevPage result else None)
    (if Catalog.pr_hasNextPage result
     then buildQueryString q limit <$> Catalog.pr_nextPage result else None)
    (Catalog.pr_totalDocs result).

(** GET /api/products *)
Definition getProducts (catalog : list Product) (q : Query) : ListingResponse :=
  let spec := Api.resolve q in
  respond q (ls_limit spec)
    (Catalog.paginate catalog (ls_filter spec) (ls_sort spec) (ls_page spec) (ls_limit spec)).

(** GET /products: the values handed to the [products] template that come
    from the query result. *)
Definition getProductsView (catalog : list Product) (q : Query) : ListingResponse :=
  let spec := View.resolve q in
  respond q (ls_limit spec)
    (Catalog.paginate catalog (ls_filter spec) (ls_sort spec) (ls_page spec) (ls_limit spec)).

End ProductListing.

(** ** The product routes (routes/products) and the socket handlers (app.js) *)

(** A request body or socket message describing a product: every key may
    be absent. *)
Record ProductData := mkProductData {
  d_id : option string;
  d_title : option string;
  d_description : option string;
  d_code : option string;
  d_price : option Double.double;
  d_status : option bool;
  d_stock : option Z;
  d_category : option string;
  d_thumbnails : option (list string);
  d_createdAt : option Z;
  d_updatedAt : option Z
}.

(** The events the server emits on the real-time channel. *)
Inductive Event :=
  | EvProducts (products : list Product)
  | EvProductAdded (product : Product)
  | EvProductDeleted (product : Product)
  | EvProductError.

(** What a handler emitted: each event with the socket it is delivered
    to. *)
Abbreviation Outbox := (list (string * Event)).

(** The running server: the database and the connected sockets. *)
Record Server := mkServer {
  srv_db : Db;
  srv_clients : list string
}.

Record ProductResponse := mkProductResponse {
  pres_status : nat;
  pres_payload : option Product
}.

Module Products.
Section Handlers.

Variable isObjectId : string → bool.

(** The schema of the Product model is not among the sources: the cast and
    validation of a new document, and of an update applied to a stored
    one, are parameters; [None] stands for a validation error. *)
Variable castNew : ProductData → option ProductFields.
Variable castUpdate : ProductFields → ProductData → option ProductFields.

Definition codeTaken (catalog : list Product) (code : string) : bool :=
  existsb (fun p => String.eqb (pf_code (p_fields p)) code) catalog.

(** [new Product(data).save()]: the store assigns the identifier and the
    timestamps and enforces the uniqueness of [code]. *)
Definition saveNew (catalog : list Product) (data : ProductData)
    (newId : string) (now : Z) : Result (Product * list Product) :=
  match castNew data with
  | None => inl ValidationError
  | Some fields =>
      if codeTaken catalog (pf_code fields) then inl DuplicateKeyError
      else
        let doc := mkProduct newId fields now now in
        inr (doc, (catalog ++ [doc])%list)
  end.

Fixpoint replaceById (id : string) (doc : Product) (catalog : list Product)
  : list Product :=
  match catalog with
  | [] => []
  | p :: rest =>
      if String.eqb (p_id p) id then doc :: rest
      else p :: replaceById id doc rest
  end.

Fixpoint removeById (id : string) (catalog : list Product) : list Product :=
  match catalog with
  | [] => []
  | p :: rest =>
      if String.eqb (p_id p) id then rest else p :: removeById id rest
  end.

(** [Product.findByIdAndUpdate(pid, data, { new: true, runValidators: true })] *)
Definition findByIdAndUpdate (catalog : list Product) (pid : string)
    (data : ProductData) (now : Z) : Result (option (Product * list Product)) :=
  let* found := Store.findProduct isObjectId catalog pid in
  match found with
  | None => inr None
  | Some p =>
      match castUpdate (p_fields p) data with
      | None => inl ValidationError
      | Some fields =>
          if codeTaken (removeById pid catalog) (pf_code fields)
          then inl DuplicateKeyError
          else
            let doc := mkProduct (p_id p) fields (p_createdAt p) now in
            inr (Some (doc, replaceById pid doc catalog))
      end
  end.

(** [Product.findByIdAndDelete(pid)] *)
Definition findByIdAndDelete (catalog : list Product) (pid : string)
  : Result (option (Product * list Product)) :=
  let* found := Store.findProduct isObjectId catalog pid in
  match found with
  | None => inr None
  | Some p => inr (Some (p, removeById pid catalog))
  end.

Definition createdAfter (p q : Product) : Prop := p_createdAt q ≤ p_createdAt p.

#[global] Instance createdAfter_dec (p q : Product) : Decision (createdAfter p q).
Proof. unfold createdAfter. apply _. Defined.

(** [Product.find().sort({ createdAt: -1 }).lean()] *)
Definition findAllNewestFirst (catalog : list Product) : list Product :=
  merge_sort createdAfter catalog.

(** [io.emit(event)]: one delivery to every connected socket. *)
Definition ioEmit (srv : Server) (ev : Event) : Outbox :=
  map (fun c => (c, ev)) (srv_clients srv).

(** [socket.emit(event)] *)
Definition socketEmit (sid : string) (ev : Event) : Outbox := [(sid, ev)].

Definition withCatalog (srv : Server) (catalog : list Product) : Server :=
  mkServer (mkDb catalog (db_carts (srv_db srv))) (srv_clients srv).

Definition catalogOf (srv : Server) : list Product := db_products (srv_db srv).

(** POST /api/products *)
Definition postProduct (srv : Server) (body : ProductData) (newId : string) (now : Z)
  : ProductResponse * Server * Outbox :=
  match saveNew (catalogOf srv) body newId now with
  | inr (newProduct, catalog') =>
      let srv' := withCatalog srv catalog' in
      let products := findAllNewestFirst (catalogOf srv') in
      (mkProductResponse 201 (Some newProduct), srv', ioEmit srv' (EvProducts products))
  | inl ValidationError => (mkProductResponse 400 None, srv, [])
  | inl DuplicateKeyError => (mkProductResponse 400 None, srv, [])
  | inl _ => (mkProductResponse 500 None, srv, [])
  end.

(** The body of PUT /api/products/:pid after [delete req.body._id],
    [delete req.body.createdAt] and [delete req.body.updatedAt]. *)
Definition stripImmutable (body : ProductData) : ProductData :=
  mkProductData None (d_title body) (d_description body) (d_code body)
    (d_price body) (d_status body) (d_stock body) (d_category body)
    (d_thumbnails body) None None.

(** PUT /api/products/:pid *)
Definition putProduct (srv : Server) (pid : string) (body : ProductData) (now : Z)
  : ProductResponse * Server * Outbox :=
  match findByIdAndUpdate (catalogOf srv) pid (stripImmutable body) now with
  | inr None => (mkProductResponse 404 None, srv, [])
  | inr (Some (updatedProduct, catalog')) =>
      let srv' := withCatalog srv catalog' in
      let products := findAllNewestFirst (catalogOf srv') in
      (mkProductResponse 200 (Some updatedProduct), srv', ioEmit srv' (EvProducts products))
  | inl CastError => (mkProductResponse 400 None, srv, [])
  | inl ValidationError => (mkProductResponse 400 None, srv, [])
  | inl DuplicateKeyError => (mkProductResponse 400 None, srv, [])
  | inl _ => (mkProductResponse 500 None, srv, [])
  end.

(** DELETE /api/products/:pid *)
Definition deleteProduct (srv : Server) (pid : string)
  : ProductResponse * Server * Outbox :=
  match findByIdAndDelete (catalogOf srv) pid with
  | inr None => (mkProductResponse 404 None, srv, [])
  | inr (Some (deletedProduct, catalog')) =>
      let srv' := withCatalog srv catalog' in
      let products := findAllNewestFirst (catalogOf srv') in
      (mkProductResponse 200 (Some deletedProduct), srv', ioEmit srv' (EvProducts products))
  | inl CastError => (mkProductResponse 400 None, srv, [])
  | inl _ => (mkProductResponse 500 None, srv, [])
  end.

(** [io.on('connection', ...)]: the new socket receives the current list. *)
Definition onConnection (srv : Server) (sid : string) : Server * Outbox :=
  let srv' := mkServer (srv_db srv) (sid :: srv_clients srv) in
  (srv', socketEmit sid (EvProducts (findAllNewestFirst (catalogOf srv')))).

(** [socket.on('addProduct', ...)] *)
Definition onAddProduct (srv : Server) (sid : string) (productData : ProductData)
    (newId : string) (now : Z) : Server * Outbox :=
  match saveNew (catalogOf srv) productData newId now with
  | inr (newProduct, catalog') =>
      let srv' := withCatalog srv catalog' in
      let products := findAllNewestFirst (catalogOf srv') in
      (srv', (ioEmit srv' (EvProducts products) ++ socketEmit sid (EvProductAdded newProduct))%list)
  | inl _ => (srv, socketEmit sid EvProductError)
  end.

(** [socket.on('deleteProduct', ...)] *)
Definition onDeleteProduct (srv : Server) (sid : string) (productId : string)
  : Server * Outbox :=
  match findByIdAndDelete (catalogOf srv) productId with
  | inr None => (srv, socketEmit sid EvProductError)
  | inr (Some (deletedProduct, catalog')) =>
      let srv' := withCatalog srv catalog' in
      let products := findAllNewestFirst (catalogOf srv') in
      (srv', (ioEmit srv' (EvProducts products) ++ socketEmit sid (EvProductDeleted deletedProduct))%list)
  | inl _ => (srv, socketEmit sid EvProductError)
  end.

(** [socket.on('disconnect', ...)]: the socket leaves the connected set. *)
Definition onDisconnect (srv : Server) (sid : string) : Server * Outbox :=
  (mkServer (srv_db srv) (List.filter (fun c => negb (String.eqb c sid)) (srv_clients srv)), []).

(** [initializeSampleData()], run by [startServer] before the server
    listens: an empty catalog receives the sample products, an empty cart
    collection one cart.  [samples] are the stored SAMPLE_PRODUCTS. *)
Definition initializeSampleData (db : Db) (samples : list Product) (cartId : string)
  : Db :=
  let catalog := if (Z.of_nat (length (db_products db)) =? 0) then (db_products db ++ samples)%list
                 else db_products db in
  let carts := if (Z.of_nat (size (db_carts db)) =? 0) then <[cartId := []]> (db_carts db)
               else db_carts db in
  mkDb catalog carts.

(** The server as it starts to listen: no socket is connected yet. *)
Definition startServer (db : Db) (samples : list Product) (cartId : string) : Server :=
  mkServer (initializeSampleData db samples cartId) [].

(** Everything the running server reacts to. *)
Inductive Input :=
  | HttpPostProduct (body : ProductData) (newId : string) (now : Z)
  | HttpPutProduct (pid : string) (body : ProductData) (now : Z)
  | HttpDeleteProduct (pid : string)
  | HttpPostCart (newId : string)
  | HttpPostCartProduct (cid pid : string) (bodyQuantity : jsval)
  | HttpDeleteCartProduct (cid pid : string)
  | HttpPutCart (cid : string) (bodyProducts : option (list ItemInput))
  | HttpPutCartProduct (cid pid : string) (bodyQuantity : jsval)
  | HttpDeleteCart (cid : string)
  | SocketConnection (sid : string)
  | SocketAddProduct (sid : string) (productData : ProductData) (newId : string) (now : Z)
  | SocketDeleteProduct (sid productId : string)
  | SocketDisconnect (sid : string).

Definition withDb (srv : Server) (db : Db) : Server := mkServer db (srv_clients srv).

(** One reaction of the server: the next state and what it emitted. *)
Definition step (srv : Server) (i : Input) : Server * Outbox :=
  match i with
  | HttpPostProduct body newId now =>
      let '(_, srv', out) := postProduct srv body newId now in (srv', out)
  | HttpPutProduct pid body now =>
      let '(_, srv', out) := putProduct srv pid body now in (srv', out)
  | HttpDeleteProduct pid =>
      let '(_, srv', out) := deleteProduct srv pid in (srv', out)
  | HttpPostCart newId =>
      (withDb srv (CartRoutes.createCart (srv_db srv) newId).2, [])
  | HttpPostCartProduct cid pid q =>
      (withDb srv (CartRoutes.postCartProduct isObjectId (srv_db srv) cid pid q).2, [])
  | HttpDeleteCartProduct cid pid =>
      (withDb srv (CartRoutes.deleteCartProduct isObjectId (srv_db srv) cid pid).2, [])
  | HttpPutCart cid items =>
      (withDb srv (CartRoutes.putCart isObjectId (srv_db srv) cid items).2, [])
  | HttpPutCartProduct cid pid q =>
      (withDb srv (CartRoutes.putCartProduct isObjectId (srv_db srv) cid pid q).2, [])
  | HttpDeleteCart cid =>
      (withDb srv (CartRoutes.deleteCart isObjectId (srv_db srv) cid).2, [])
  | SocketConnection sid => onConnection srv sid
  | SocketAddProduct sid data newId now => onAddProduct srv sid data newId now
  | SocketDeleteProduct sid pid => onDeleteProduct srv sid pid
  | SocketDisconnect sid => onDisconnect srv sid
  end.

(** Whether an input is a catalog mutation that the server carried out:
    the HTTP handler answered 2xx, or the socket handler acknowledged. *)
Definition mutationSucceeded (srv : Server) (i : Input) : bool :=
  match i with
  | HttpPostProduct body newId now =>
      (pres_status (postProduct srv body newId now).1.1 =? 201)%nat
  | HttpPutProduct pid body now =>
      (pres_status (putProduct srv pid body now).1.1 =? 200)%nat
  | HttpDeleteProduct pid =>
      (pres_status (deleteProduct srv pid).1.1 =? 200)%nat
  | SocketAddProduct sid data newId now =>
      match saveNew (catalogOf srv) data newId now with
      | inr _ => true
      | inl _ => false
      end
  | SocketDeleteProduct sid pid =>
      match findByIdAndDelete (catalogOf srv) pid with
      | inr (Some _) => true
      | _ => false
      end
  | _ => false
  end.

End Handlers.
End Products.

(** ** The specification's wording, for comparison *)

(** The query heuristic: an availability word selects by status, anything
    else is a category. *)
Definition queryHeuristic (qs : string) : Filter :=
  let queryLower := JS.toLowerCase (JS.trim qs) in
  if String.eqb queryLower "true" || String.eqb queryLower "false"
     || String.eqb queryLower "disponible"
     || String.eqb queryLower "no disponible"
  then mkFilter None
         (Some (String.eqb queryLower "true" || String.eqb queryLower "disponible"))
  else mkFilter (Some (JS.trim qs)) None.

(** The boolean a [status] parameter stands for. *)
Definition statusFlag (st : string) : bool :=
  String.eqb st "true" || String.eqb st "1" || String.eqb st "yes".

(** The precedence rule as the specification words it: the category alone,
    else the status alone, else the query heuristic, else nothing. *)
Definition specFilter (q : Query) : Filter :=
  match q_category q, q_status q, q_query q with
  | Some c, _, _ => mkFilter (Some (JS.trim c)) None
  | None, Some st, _ => mkFilter None (Some (statusFlag st))
  | None, None, Some qs => queryHeuristic qs
  | None, None, None => emptyFilter
  end.

(** ** Sample data for the examples *)

Module Sample.

Definition idA : string := "64b7f0c2a1d3e4f5a6b7c8d1".
Definition idB : string := "64b7f0c2a1d3e4f5a6b7c8d2".
Definition idGone : string := "64b7f0c2a1d3e4f5a6b7c8d3".
Definition cartId : string := "64b7f0c2a1d3e4f5a6b7c8e0".

Definition productA : Product :=
  mkProduct idA
    (mkProductFields "Product A" "first" "CODE-A" (Double.ofZ 10) true 5 "Laptops" [])
    1000 1000.

Definition productB : Product :=
  mkProduct idB
    (mkProductFields "Product B" "second" "CODE-B" (Double.ofZ 5) true 3 "Audio" [])
    2000 2000.

Definition catalog : list Product := [productA; productB].

Definition dbWith (cart : Cart) : Db := mkDb catalog {[ cartId := cart ]}.

(** Items naming a product of the catalog, and one that is not in it. *)
Definition goodItem : ItemInput := mkItemInput idB (JInt 2).
Definition danglingItem : ItemInput := mkItemInput idGone (JInt 2).

(** The cart of the scenario: two of A at 10.00, one of B at 5.00. *)
Definition scenarioCart : Cart := [mkLineItem idA 2; mkLineItem idB 1].

(** A PUT /api/carts/:cid body naming product A twice. *)
Definition repeatedItems : list ItemInput :=
  [mkItemInput idA (JInt 1); mkItemInput idA (JInt 2)].

(** A schema in which every declared field is required, and an update that
    overwrites the fields present; the instances used in the examples. *)
Definition castAll (d : ProductData) : option ProductFields :=
  title ← d_title d;
  description ← d_description d;
  code ← d_code d;
  price ← d_price d;
  status ← d_status d;
  stock ← d_stock d;
  category ← d_category d;
  thumbnails ← d_thumbnails d;
  Some (mkProductFields title description code price status stock category thumbnails).

Definition castOver (old : ProductFields) (d : ProductData) : option ProductFields :=
  Some (mkProductFields
          (default (pf_title old) (d_title d))
          (default (pf_description old) (d_description d))
          (default (pf_code old) (d_code d))
          (default (pf_price old) (d_price d))
          (default (pf_status old) (d_status d))
          (default (pf_stock old) (d_stock d))
          (default (pf_category old) (d_category d))
          (default (pf_thumbnails old) (d_thumbnails d))).

Definition idC : string := "64b7f0c2a1d3e4f5a6b7c8d4".

Definition dataC : ProductData :=
  mkProductData None (Some "Product C") (Some "third") (Some "CODE-C")
    (Some (Double.ofZ 7)) (Some true) (Some 9) (Some "Audio") (Some []) None None.

Definition productC : Product :=
  mkProduct idC
    (mkProductFields "Product C" "third" "CODE-C" (Double.ofZ 7) true 9 "Audio" [])
    3000 3000.

(** A server with one connected socket. *)
Definition server : Server := mkServer (dbWith []) ["socket-1"].

(** Seven laptops at 100, 200, ..., 700, and the listing request of the
    scenario, [?category=Laptops&sort=desc&page=1&limit=5]. *)
Definition laptop (i : Z) : Product :=
  mkProduct ("laptop-" ++ showZ i)
    (mkProductFields "Laptop" "a laptop" ("LAP-" ++ showZ i) (Double.ofZ (100 * i))
       true 1 "Laptops" [])
    i i.

Definition laptops : list Product := laptop <$> [3; 1; 7; 2; 6; 4; 5].

Definition laptopsDescending : Query :=
  mkQuery (Some "5") (Some "1") (Some "desc") None (Some "Laptops") None.

(** [?limit=5&sort=desc&query=Audio&category=] *)
Definition audioQuery : Query :=
  mkQuery (Some "5") None (Some "desc") (Some "Audio") (Some "") None.

(** [?category=Laptops&status=true] *)
Definition categoryAndStatus : Query :=
  mkQuery None None None None (Some "Laptops") (Some "true").

(** [?limit=-5&page=-2] *)
Definition negativeLimit : Query :=
  mkQuery (Some "-5") (Some "-2") None None None None.

End Sample.

(** An item of [updateCart] is valid when its product resolves to an
    existing catalog entry and its quantity is a positive integer. *)
Definition itemValid (isObjectId : string → bool) (catalog : list Product)
    (it : ItemInput) : Prop :=
  (isObjectId (ii_product it) = true ∧ ∃ p, p ∈ catalog ∧ p_id p = ii_product it)
  ∧ ∃ q, ii_quantity it = JInt q ∧ 1 ≤ q.

(** The line item a valid item stands for. *)
Definition itemLine (it : ItemInput) : LineItem :=
  mkLineItem (ii_product it)
    (match ii_quantity it with JInt q => q | _ => 0 end).

(** The product identifiers of a cart's line items, in order. *)
Definition productIds (cart : Cart) : list string := li_product <$> cart.

(** The quantity a cart holds of a product, 0 when it has no line for it. *)
Definition quantityOf (pid : string) (cart : Cart) : Z :=
  match List.find (fun li => String.eqb (li_product li) pid) cart with
  | Some li => li_quantity li
  | None => 0
  end.

(** The line items of a cart for one product. *)
Definition linesOf (pid : string) (cart : Cart) : Cart :=
  List.filter (fun li => String.eqb (li_product li) pid) cart.

(** The carts that the cart operations can produce from a new, empty cart,
    with any catalog at each step; [P] restricts the item lists given to
    [updateCart]. *)
Inductive reachableWith (isObjectId : string → bool) (P : list ItemInput → Prop)
  : Cart → Prop :=
  | reach_new : reachableWith isObjectId P []
  | reach_addProduct catalog c pid q c' :
      reachableWith isObjectId P c →
      CartModel.addProduct isObjectId catalog c pid q = inr c' →
      reachableWith isObjectId P c'
  | reach_removeProduct c pid c' :
      reachableWith isObjectId P c →
      CartModel.removeProduct c pid = inr c' →
      reachableWith isObjectId P c'
  | reach_updateCart catalog c items c' :
      reachableWith isObjectId P c →
      P items →
      CartModel.updateCart isObjectId catalog c items = inr c' →
      reachableWith isObjectId P c'
  | reach_updateProductQuantity c pid q c' :
      reachableWith isObjectId P c →
      CartModel.updateProductQuantity c pid q = inr c' →
      reachableWith isObjectId P c'
  | reach_clearCart c c' :
      reachableWith isObjectId P c →
      CartModel.clearCart c = inr c' →
      reachableWith isObjectId P c'.

Definition reachable (isObjectId : string → bool) : Cart → Prop :=
  reachableWith isObjectId (fun _ => True).

Definition distinctItems (items : list ItemInput) : Prop :=
  NoDup (ii_product <$> items).

(** *** Rounding to two decimals, as a specification *)

(** A positive finite Number [m * 2^e] as a fraction of integers. *)
Definition numerator (m : positive) (e : Z) : Z := Zpos m * 2 ^ Z.max e 0.
Definition denominator (e : Z) : Z := 2 ^ Z.max (- e) 0.

(** [n / 100] is the multiple of one hundredth nearest to [m * 2^e], the
    larger one at a tie: [n - 1/2 <= 100 * m * 2^e < n + 1/2], cleared of
    fractions. *)
Definition roundsToHundredths (m : positive) (e : Z) (n : Z) : Prop :=
  (2 * n - 1) * denominator e ≤ 200 * numerator m e < (2 * n + 1) * denominator e.

(** What [toFixed(2)] has to return for a Number: below 10^21 the sign and
    the nearest number of hundredths, from 10^21 on the text of the Number
    itself, and the names of the non-finite Numbers. *)
Definition roundedTo2 (x : Double.double) (f : Double.Fixed2) : Prop :=
  match x with
  | S754_nan => f = Double.FxNaN
  | S754_infinity s => f = Double.FxInfinity s
  | S754_zero _ => f = Double.FxDecimal false 0
  | S754_finite s m e =>
      (numerator m e < 10 ^ 21 * denominator e →
       ∃ n, f = Double.FxDecimal s n ∧ roundsToHundredths m e n)
      ∧ (10 ^ 21 * denominator e ≤ numerator m e →
         f = Double.FxToString s (S754_finite false m e))
  end.

(** A line item whose product the catalog still has. *)
Definition resolves (catalog : list Product) (li : LineItem) : bool :=
  existsb (fun p => String.eqb (p_id p) (li_product li)) catalog.

(** A row of the cart view for a line item: the product the line refers
    to, the quantity of the line, and [price * quantity] rounded to two
    decimals as the subtotal. *)
Definition lineDetail (catalog : list Product) (li : LineItem) (item : ViewItem)
  : Prop :=
  vi_product item ∈ catalog
  ∧ p_id (vi_product item) = li_product li
  ∧ vi_quantity item = li_quantity li
  ∧ roundedTo2
      (Double.mul (pf_price (p_fields (vi_product item))) (Double.ofZ (li_quantity li)))
      (vi_subtotal item).


(** ** Further handlers and auxiliary notions *)

(** The integer a string of decimal digits denotes after the digits read so
    far gave [acc]. *)
Fixpoint uintValue (acc : Z) (d : Decimal.uint) : Z :=
  match d with
  | Decimal.Nil => acc
  | Decimal.D0 l => uintValue (10 * acc + 0) l
  | Decimal.D1 l => uintValue (10 * acc + 1) l
  | Decimal.D2 l => uintValue (10 * acc + 2) l
  | Decimal.D3 l => uintValue (10 * acc + 3) l
  | Decimal.D4 l => uintValue (10 * acc + 4) l
  | Decimal.D5 l => uintValue (10 * acc + 5) l
  | Decimal.D6 l => uintValue (10 * acc + 6) l
  | Decimal.D7 l => uintValue (10 * acc + 7) l
  | Decimal.D8 l => uintValue (10 * acc + 8) l
  | Decimal.D9 l => uintValue (10 * acc + 9) l
  end.

(** The value of a key in a navigation link's parameters. *)
Fixpoint linkParam (key : string) (l : Link) : option string :=
  match l with
  | [] => None
  | (k, v) :: rest => if String.eqb k key then Some v else linkParam key rest
  end.

(** [req.query] of the request a navigation link leads to. *)
Definition queryOfLink (l : Link) : Query :=
  mkQuery (linkParam "limit" l) (linkParam "page" l) (linkParam "sort" l)
    (linkParam "query" l) (linkParam "category" l) (linkParam "status" l).

(** A query with its [category] parameter replaced. *)
Definition withCategory (q : Query) (c : option string) : Query :=
  mkQuery (q_limit q) (q_page q) (q_sort q) (q_query q) c (q_status q).

(** [limit] or [page] reads as a negative integer. *)
Definition negativePaging (q : Query) : Prop :=
  (∃ n, JS.parseInt (q_limit q) = Some n ∧ n < 0)
  ∨ (∃ n, JS.parseInt (q_page q) = Some n ∧ n < 0).

(** How a product route ends: with a success status, the product as
    payload and the snapshot sent to every connected socket, nothing else
    being changed or sent; or with an error status, no payload, the server
    as it was and nothing sent. *)
Definition productOutcome (srv : Server) (r : ProductResponse * Server * Outbox)
  : Prop :=
  (pres_status r.1.1 ∈ [200; 201]%nat
   ∧ is_Some (pres_payload r.1.1)
   ∧ r.2 = Products.ioEmit r.1.2
             (EvProducts (Products.findAllNewestFirst (Products.catalogOf r.1.2)))
   ∧ srv_clients r.1.2 = srv_clients srv
   ∧ db_carts (srv_db r.1.2) = db_carts (srv_db srv))
  ∨ (pres_status r.1.1 ∈ [400; 404; 500]%nat
     ∧ pres_payload r.1.1 = None
     ∧ r.1.2 = srv
     ∧ r.2 = []).

(** The reply a socket handler sends to the requesting socket for the
    outcome of the corresponding product route. *)
Definition socketReply (ack : Product → Event) (resp : ProductResponse) : Event :=
  match pres_payload resp with
  | Some p => ack p
  | None => EvProductError
  end.

Module ProductLookup.
Section Handlers.

Variable isObjectId : string → bool.

(** GET /api/products/:pid *)
Definition getProduct (catalog : list Product) (pid : string) : ProductResponse :=
  match Store.findProduct isObjectId catalog pid with
  | inr (Some product) => mkProductResponse 200 (Some product)
  | inr None => mkProductResponse 404 None
  | inl CastError => mkProductResponse 400 None
  | inl _ => mkProductResponse 500 None
  end.

(** GET /products/:pid: the status and the product handed to the
    [productDetail] template, none on the error page. *)
Definition getProductDetail (catalog : list Product) (pid : string) : ProductResponse :=
  match Store.findProduct isObjectId catalog pid with
  | inr (Some product) => mkProductResponse 200 (Some product)
  | inr None => mkProductResponse 404 None
  | inl CastError => mkProductResponse 400 None
  | inl _ => mkProductResponse 500 None
  end.

End Handlers.

(** GET /realtimeproducts: the [products] and [hasProducts] handed to the
    template. *)
Definition getRealTimeProducts (catalog : list Product) : list Product * bool :=
  let products := Products.findAllNewestFirst catalog in
  (products, 0 <? Z.of_nat (length products)).

End ProductLookup.

(** * Properties *)

(** ** The resolver of the listing endpoints *)

Lemma view_buildFilter_eq (q : Query) : View.buildFilter q = Api.buildFilter q.
Proof. reflexivity. Qed.

Lemma view_sortSpec_eq (q : Query) : View.sortSpec q = Api.sortSpec q.
Proof. reflexivity. Qed.

Lemma api_limit_positive (q : Query) : 1 ≤ Api.limit q.
Proof. unfold Api.limit. lia. Qed.

Lemma api_page_positive (q : Query) : 1 ≤ Api.page q.
Proof. unfold Api.page. lia. Qed.

(** The two handlers agree whenever the view's own coercion yields positive
    numbers. *)
Lemma view_resolve_eq (q : Query) :
  1 ≤ View.limit q → 1 ≤ View.page q → View.resolve q = Api.resolve q.
Proof.
  intros Hl Hp. unfold View.resolve, Api.resolve, Api.limit, Api.page.
  unfold View.limit, View.page in Hl, Hp.
  rewrite view_buildFilter_eq, view_sortSpec_eq.
  f_equal; unfold View.limit, View.page; lia.
Qed.

(** C2, as stated, fails: with [?category=Laptops&status=true] both
    handlers constrain the status as well as the category, where the stated
    precedence keeps the category only. *)
Lemma status_kept_beside_category :
  Api.buildFilter Sample.categoryAndStatus = mkFilter (Some "Laptops") (Some true)
  ∧ View.buildFilter Sample.categoryAndStatus = mkFilter (Some "Laptops") (Some true)
  ∧ specFilter Sample.categoryAndStatus = mkFilter (Some "Laptops") None
  ∧ Api.buildFilter Sample.categoryAndStatus ≠ specFilter Sample.categoryAndStatus.
Proof. repeat split; try reflexivity. discriminate. Qed.

(** C2, amended: both listing handlers build the same filter, in which a
    non-empty [category] sets the category key to its trimmed value, a
    present [status] sets the status key to the boolean of "true", "1",
    "yes" (and does so beside a category), the [query] heuristic applies
    only when [category] is absent or empty and [status] is absent, and
    the filter is empty when none of the three applies. *)
Theorem filter_resolution (q : Query) :
  View.buildFilter q = Api.buildFilter q
  ∧ (JS.truthy (q_category q) = true →
     f_category (Api.buildFilter q) = JS.trim <$> q_category q)
  ∧ (∀ st, q_status q = Some st →
     f_status (Api.buildFilter q) = Some (statusFlag st))
  ∧ (JS.truthy (q_category q) = true → q_status q = None →
     f_status (Api.buildFilter q) = None)
  ∧ (JS.truthy (q_category q) = false → is_Some (q_status q) →
     f_category (Api.buildFilter q) = None)
  ∧ (∀ qs, JS.truthy (q_category q) = false → q_status q = None →
     q_query q = Some qs → qs ≠ "" →
     Api.buildFilter q = queryHeuristic qs)
  ∧ (JS.truthy (q_category q) = false → q_status q = None →
     JS.truthy (q_query q) = false →
     Api.buildFilter q = emptyFilter).
Proof.
  destruct q as [l p so qu cat st]; cbn [q_category q_status q_query].
  split; [reflexivity|]. unfold Api.buildFilter, statusFlag, queryHeuristic.
  cbn [q_category q_status q_query f_category f_status emptyFilter].
  repeat split.
  - intros Hc. rewrite Hc. destruct st, qu; cbn; rewrite ?Hc, ?andb_false_r; cbn;
      try reflexivity.
    all: try (destruct (JS.truthy (Some _)); reflexivity).
  - intros s ->. destruct (JS.truthy cat), qu; cbn; rewrite ?andb_false_r; reflexivity.
  - intros Hc ->. rewrite Hc. destruct qu; cbn; rewrite ?andb_false_r; cbn; reflexivity.
  - intros Hc [s ->]. rewrite Hc. destruct qu; cbn; rewrite ?andb_false_r; reflexivity.
  - intros qs Hc -> -> Hne. rewrite Hc. cbn.
    assert (String.eqb qs "" = false) as -> by (by apply String.eqb_neq).
    cbn. repeat case_match; reflexivity.
  - intros Hc -> Hq. rewrite Hc. destruct qu as [qs|]; [|reflexivity].
    rewrite Hq. reflexivity.
Qed.

Lemma filter_resolution_witness :
  f_category (Api.buildFilter Sample.categoryAndStatus) = Some "Laptops"
  ∧ f_status (Api.buildFilter Sample.categoryAndStatus) = Some true.
Proof.
  destruct (filter_resolution Sample.categoryAndStatus) as (_ & Hc & Hs & _).
  split; [exact (Hc eq_refl) | exact (Hs "true" eq_refl)].
Defined.

(** C7: the two handlers do not coerce alike.  On [?limit=-5&page=-2] the
    JSON endpoint clamps both numbers to 1, the page-rendering endpoint
    passes -5 and -2 on. *)
Theorem listing_coercion_diverges :
  ls_limit (Api.resolve Sample.negativeLimit) = 1
  ∧ ls_page (Api.resolve Sample.negativeLimit) = 1
  ∧ ls_limit (View.resolve Sample.negativeLimit) = -5
  ∧ ls_page (View.resolve Sample.negativeLimit) = -2
  ∧ View.resolve Sample.negativeLimit ≠ Api.resolve Sample.negativeLimit.
Proof. repeat split; try reflexivity. discriminate. Qed.

(** ** The cart model and the cart routes *)

Section CartFacts.

Variable isObjectId : string → bool.

Lemma find_by_id_Some (catalog : list Product) (id : string) :
  (∃ p, p ∈ catalog ∧ p_id p = id) →
  ∃ p, List.find (fun p => String.eqb (p_id p) id) catalog = Some p.
Proof.
  intros (p & Hin & Hid).
  destruct (List.find _ catalog) as [p'|] eqn:Hf; [by eexists|].
  apply list_elem_of_In in Hin.
  pose proof (find_none _ _ Hf p Hin) as Hne. cbn in Hne.
  apply String.eqb_neq in Hne. done.
Qed.

Lemma find_by_id_inv (catalog : list Product) (id : string) (p : Product) :
  List.find (fun p => String.eqb (p_id p) id) catalog = Some p →
  p ∈ catalog ∧ p_id p = id.
Proof.
  intros Hf. apply find_some in Hf as [Hin Heq].
  split; [by apply list_elem_of_In | by apply String.eqb_eq].
Qed.

Lemma resolveProduct_ok (catalog : list Product) (pid : string) :
  isObjectId pid = true → (∃ p, p ∈ catalog ∧ p_id p = pid) →
  ∃ p, CartModel.resolveProduct isObjectId catalog pid = inr p.
Proof.
  intros Hid Hex. unfold CartModel.resolveProduct, Store.findProduct.
  rewrite Hid. cbn. destruct (find_by_id_Some _ _ Hex) as [p ->]. by eexists.
Qed.

Lemma resolveProduct_inv (catalog : list Product) (pid : string) (p : Product) :
  CartModel.resolveProduct isObjectId catalog pid = inr p →
  isObjectId pid = true ∧ p ∈ catalog ∧ p_id p = pid.
Proof.
  unfold CartModel.resolveProduct, Store.findProduct.
  destruct (isObjectId pid); [|discriminate]. cbn.
  destruct (List.find _ catalog) as [p'|] eqn:Hf; [|discriminate].
  intros [= <-]. split; [done|]. by apply find_by_id_inv.
Qed.

Lemma validateItem_valid (catalog : list Product) (it : ItemInput) :
  itemValid isObjectId catalog it →
  CartModel.validateItem isObjectId catalog it = inr (itemLine it).
Proof.
  intros [[Hid Hex] (q & Hq & Hpos)].
  unfold CartModel.validateItem, itemLine. rewrite Hq.
  destruct (Z.ltb_spec q 1); [lia|].
  destruct (resolveProduct_ok catalog _ Hid Hex) as [p ->]. reflexivity.
Qed.

Lemma validateItem_invalid (catalog : list Product) (it : ItemInput) :
  ¬ itemValid isObjectId catalog it →
  ∃ e, CartModel.validateItem isObjectId catalog it = inl e.
Proof.
  intros Hinv. unfold CartModel.validateItem.
  destruct (ii_quantity it) as [| |b|q|s] eqn:Hq; try by eexists.
  destruct (Z.ltb_spec q 1); [by eexists|].
  destruct (CartModel.resolveProduct isObjectId catalog (ii_product it)) as [e|p] eqn:Hr;
    [by eexists|].
  exfalso. apply Hinv. apply resolveProduct_inv in Hr as (Hid & Hin & Hp).
  split; [split; [done | by exists p] | exists q; split; [done | lia]].
Qed.

Lemma validateItems_valid (catalog : list Product) (items : list ItemInput) :
  Forall (itemValid isObjectId catalog) items →
  CartModel.validateItems isObjectId catalog items = inr (itemLine <$> items).
Proof.
  induction 1 as [|it items Hit _ IH]; [reflexivity|].
  cbn. rewrite (validateItem_valid _ _ Hit). cbn. rewrite IH. reflexivity.
Qed.

Lemma validateItems_invalid (catalog : list Product) (items : list ItemInput) :
  Exists (fun it => ¬ itemValid isObjectId catalog it) items →
  ∃ e, CartModel.validateItems isObjectId catalog items = inl e.
Proof.
  induction 1 as [it items Hit | it items _ [e IH]]; cbn.
  - destruct (validateItem_invalid _ _ Hit) as [e ->]. by eexists.
  - destruct (CartModel.validateItem isObjectId catalog it); cbn; [by eexists|].
    rewrite IH. by eexists.
Qed.

Lemma productIds_addLine (pid : string) (q : Z) (c : Cart) :
  productIds (CartModel.addLine pid q c)
  = if bool_decide (pid ∈ productIds c) then productIds c
    else (productIds c ++ [pid])%list.
Proof.
  induction c as [|li c IH]; [reflexivity|]. cbn.
  destruct (String.eqb_spec (li_product li) pid) as [->|Hne]; cbn.
  - rewrite bool_decide_eq_true_2; [reflexivity | left].
  - fold (productIds (CartModel.addLine pid q c)). rewrite IH.
    fold (productIds c).
    destruct (bool_decide_reflect (pid ∈ productIds c)) as [Hin|Hnin].
    + rewrite bool_decide_eq_true_2; [reflexivity | by right].
    + rewrite bool_decide_eq_false_2; [reflexivity|].
      intros [?|?]%elem_of_cons; congruence.
Qed.

Lemma NoDup_addLine (pid : string) (q : Z) (c : Cart) :
  NoDup (productIds c) → NoDup (productIds (CartModel.addLine pid q c)).
Proof.
  intros Hnd. rewrite productIds_addLine.
  destruct (bool_decide_reflect (pid ∈ productIds c)) as [Hin|Hnin]; [done|].
  apply NoDup_app. split; [done|]. split; [|apply NoDup_singleton].
  intros x Hx ->%list_elem_of_singleton. done.
Qed.

Lemma productIds_setLine (pid : string) (q : Z) (c c' : Cart) :
  CartModel.setLine pid q c = Some c' → productIds c' = productIds c.
Proof.
  revert c'. induction c as [|li c IH]; intros c'; cbn; [discriminate|].
  destruct (String.eqb (li_product li) pid).
  - intros [= <-]. reflexivity.
  - destruct (CartModel.setLine pid q c) as [r|]; cbn; [|discriminate].
    intros [= <-]. cbn. f_equal. by apply IH.
Qed.

Lemma NoDup_removeLines (pid : string) (c : Cart) :
  NoDup (productIds c) →
  NoDup (productIds (List.filter (fun li => negb (String.eqb (li_product li) pid)) c)).
Proof.
  induction c as [|li c IH]; cbn; [done|].
  intros [Hnin Hnd]%NoDup_cons. destruct (negb _); cbn; [|by apply IH].
  apply NoDup_cons. split; [|by apply IH].
  intros (li' & Heq & Hin)%list_elem_of_fmap. apply Hnin.
  apply list_elem_of_fmap. exists li'. split; [done|].
  apply list_elem_of_In in Hin. apply filter_In in Hin as [Hin _].
  by apply list_elem_of_In.
Qed.

Lemma productIds_validateItems (catalog : list Product) (items : list ItemInput)
    (c : Cart) :
  CartModel.validateItems isObjectId catalog items = inr c →
  productIds c = ii_product <$> items.
Proof.
  revert c. induction items as [|it items IH]; intros c; cbn.
  - by intros [= <-].
  - unfold CartModel.validateItem at 1.
    destruct (ii_quantity it) as [| |b|q|s]; cbn; try discriminate.
    destruct (q <? 1); cbn; [discriminate|].
    destruct (CartModel.resolveProduct isObjectId catalog (ii_product it)); cbn;
      [discriminate|].
    destruct (CartModel.validateItems isObjectId catalog items) as [e|lis]; cbn;
      [discriminate|].
    intros [= <-]. cbn. f_equal. by apply IH.
Qed.

Lemma quantityOf_addLine (pid : string) (q : Z) (c : Cart) :
  quantityOf pid (CartModel.addLine pid q c) = quantityOf pid c + q.
Proof.
  unfold quantityOf. induction c as [|li c IH]; cbn.
  - rewrite String.eqb_refl. reflexivity.
  - destruct (String.eqb (li_product li) pid) eqn:Heq; cbn; rewrite Heq; done.
Qed.

Lemma linesOf_absent (pid : string) (c : Cart) :
  pid ∉ productIds c → linesOf pid c = [].
Proof.
  induction c as [|li c IH]; cbn; [done|].
  intros Hnin. destruct (String.eqb_spec (li_product li) pid) as [Heq|Hne].
  - exfalso. apply Hnin. rewrite Heq. left.
  - apply IH. intros Hin. apply Hnin. by right.
Qed.

Lemma linesOf_addLine (pid : string) (q : Z) (c : Cart) :
  NoDup (productIds c) →
  linesOf pid (CartModel.addLine pid q c) = [mkLineItem pid (quantityOf pid c + q)].
Proof.
  unfold quantityOf. induction c as [|li c IH]; cbn.
  - rewrite String.eqb_refl. reflexivity.
  - intros [Hnin Hnd]%NoDup_cons.
    destruct (String.eqb_spec (li_product li) pid) as [Heq|Hne]; cbn.
    + rewrite Heq, String.eqb_refl. f_equal.
      apply linesOf_absent. by rewrite <- Heq.
    + destruct (String.eqb_spec (li_product li) pid); [done|]. by apply IH.
Qed.



(** C3: when some item fails validation, [updateCart] fails, the handler
    answers 400 and the database, hence the cart's line items, is what it
    was; when every item validates, the cart's line items become exactly
    the given list. *)
Theorem updateCart_all_or_nothing (db : Db) (cid : string) (cart : Cart)
    (items : list ItemInput) :
  Store.findCart isObjectId db cid = inr (Some cart) →
  (Exists (fun it => ¬ itemValid isObjectId (db_products db) it) items →
     (∃ e, CartModel.updateCart isObjectId (db_products db) cart items = inl e)
     ∧ CartRoutes.putCart isObjectId db cid (Some items) = (mkResponse 400 None, db)
     ∧ db_carts (CartRoutes.putCart isObjectId db cid (Some items)).2 !! cid = Some cart)
  ∧ (Forall (itemValid isObjectId (db_products db)) items →
     CartModel.updateCart isObjectId (db_products db) cart items = inr (itemLine <$> items)
     ∧ res_status (CartRoutes.putCart isObjectId db cid (Some items)).1 = 200%nat
     ∧ db_carts (CartRoutes.putCart isObjectId db cid (Some items)).2 !! cid
       = Some (itemLine <$> items)).
Proof.
  intros Hfind. unfold CartRoutes.putCart, CartModel.updateCart. rewrite Hfind.
  split.
  - intros Hbad. destruct (validateItems_invalid _ _ Hbad) as [e ->]. cbn.
    split; [by eexists|]. split; [reflexivity|].
    unfold Store.findCart in Hfind. destruct (isObjectId cid); congruence.
  - intros Hgood. rewrite (validateItems_valid _ _ Hgood). cbn.
    split; [reflexivity|]. split; [reflexivity|]. apply lookup_insert_eq.
Qed.

(** C8: [removeProduct] never fails; the resulting cart has no line item
    for the product and keeps every other line item in place; a cart
    without a line item for the product is returned exactly as it was; and
    removing again changes nothing.  The handler answers 200 and stores
    that cart. *)
Theorem removeProduct_idempotent (db : Db) (cid pid : string) (cart : Cart) :
  Store.findCart isObjectId db cid = inr (Some cart) →
  ∃ cart',
    CartModel.removeProduct cart pid = inr cart'
    ∧ (pid ∉ productIds cart')
    ∧ (∀ li, li ∈ cart' ↔ li ∈ cart ∧ li_product li ≠ pid)
    ∧ cart' `sublist_of` cart
    ∧ (pid ∉ productIds cart → cart' = cart)
    ∧ CartModel.removeProduct cart' pid = inr cart'
    ∧ res_status (CartRoutes.deleteCartProduct isObjectId db cid pid).1 = 200%nat
    ∧ db_carts (CartRoutes.deleteCartProduct isObjectId db cid pid).2 !! cid = Some cart'
    ∧ (pid ∉ productIds cart →
       (CartRoutes.deleteCartProduct isObjectId db cid pid).2 = db).
Proof.
  intros Hfind.
  set (keep := fun li => negb (String.eqb (li_product li) pid)).
  assert (Hmem : ∀ li, li ∈ List.filter keep cart ↔ li ∈ cart ∧ li_product li ≠ pid).
  { intros li. rewrite !list_elem_of_In, filter_In. unfold keep.
    rewrite negb_true_iff, String.eqb_neq. done. }
  assert (Hsame : pid ∉ productIds cart → List.filter keep cart = cart).
  { intros Hnin. clear Hmem Hfind. induction cart as [|li c IH]; [done|]. cbn.
    apply not_elem_of_cons in Hnin as [Hne Hnin]. unfold keep at 1.
    destruct (String.eqb_spec (li_product li) pid); [congruence|]. cbn.
    f_equal. by apply IH. }
  exists (List.filter keep cart). split; [reflexivity|].
  split.
  { intros (li & Heq & [_ Hne]%Hmem)%list_elem_of_fmap. congruence. }
  split; [done|]. split.
  { clear. induction cart as [|li c IH]; cbn; [done|].
    destruct (keep li); by constructor. }
  split; [done|]. split.
  { unfold CartModel.removeProduct. f_equal. fold keep.
    clear. induction cart as [|li c IH]; cbn; [done|].
    destruct (keep li) eqn:Hk; cbn; rewrite ?Hk; congruence. }
  unfold CartRoutes.deleteCartProduct. rewrite Hfind. cbn. fold keep.
  split; [reflexivity|]. split; [apply lookup_insert_eq|].
  intros Hnin. rewrite (Hsame Hnin). unfold Store.saveCart.
  unfold Store.findCart in Hfind. destruct (isObjectId cid); [|discriminate].
  injection Hfind as Hfind. rewrite insert_id by done. by destruct db.
Qed.

(** The quantity check of POST /api/carts/:cid/product/:pid rejects
    exactly the values whose integer prefix is negative. *)
Lemma postCartProduct_rejects_iff_negative (bodyQuantity : jsval) :
  (JS.orDefault (JSVal.parseInt bodyQuantity) 1 <? 1) = true
  ↔ ∃ n, JSVal.parseInt bodyQuantity = Some n ∧ n < 0.
Proof.
  unfold JS.orDefault. destruct (JSVal.parseInt bodyQuantity) as [n|].
  - destruct (Z.eqb_spec n 0) as [->|Hn].
    + split; [discriminate | intros (m & [= <-] & ?); lia].
    + rewrite Z.ltb_lt. split; [intros; exists n; split; [done|lia]|].
      intros (m & [= <-] & ?). lia.
  - split; [discriminate | intros (m & [=] & _)].
Qed.

(** C10: GET /api/carts/:cid answers with one populated item per line item
    of the cart, in order and with its quantity; the item carries the
    product with the referenced identifier, or null when the catalog has
    none, and such an item is kept. *)
Theorem getCart_keeps_dangling_lines (db : Db) (cid : string) (cart : Cart) :
  Store.findCart isObjectId db cid = inr (Some cart) →
  ∃ items,
    CartRoutes.getCart isObjectId db cid = mkResponse 200 (Some (Populated items))
    ∧ Forall2 (fun li item =>
                 pi_quantity item = li_quantity li
                 ∧ match pi_product item with
                   | Some p => p ∈ db_products db ∧ p_id p = li_product li
                   | None => ∀ p, p ∈ db_products db → p_id p ≠ li_product li
                   end)
              cart items
    ∧ (∀ li, li ∈ cart →
         (∀ p, p ∈ db_products db → p_id p ≠ li_product li) →
         mkPopulatedItem None (li_quantity li) ∈ items).
Proof.
  intros Hfind. unfold CartRoutes.getCart. rewrite Hfind.
  eexists. split; [reflexivity|]. split.
  - unfold populate. apply Forall2_fmap_r, Forall_Forall2_diag, Forall_forall.
    intros li _. cbn. split; [done|].
    destruct (List.find _ (db_products db)) as [p|] eqn:Hf.
    + by apply find_by_id_inv.
    + intros p Hin%list_elem_of_In Heq.
      pose proof (find_none _ _ Hf p Hin) as Hne. cbn in Hne.
      by apply String.eqb_neq in Hne.
  - intros li Hin Hgone. unfold populate.
    apply (list_elem_of_fmap (B := PopulatedItem)). exists li. split; [|done]. f_equal.
    destruct (List.find _ (db_products db)) as [p|] eqn:Hf; [|done].
    apply find_by_id_inv in Hf as [Hp Hid]. by destruct (Hgone p Hp).
Qed.

End CartFacts.


Lemma sample_findCart (cart : Cart) :
  Store.findCart Store.hex24 (Sample.dbWith cart) Sample.cartId = inr (Some cart).
Proof. unfold Store.findCart. cbn. apply f_equal, lookup_insert_eq. Qed.

Lemma danglingItem_invalid :
  ¬ itemValid Store.hex24 Sample.catalog Sample.danglingItem.
Proof.
  intros [[_ (p & Hin & Hid)] _].
  apply elem_of_cons in Hin as [->|Hin]; [discriminate|].
  apply list_elem_of_singleton in Hin as ->. discriminate.
Qed.

Lemma goodItem_valid : itemValid Store.hex24 Sample.catalog Sample.goodItem.
Proof.
  split; [split; [reflexivity|]|].
  - exists Sample.productB. split; [right; left | reflexivity].
  - exists 2. split; [reflexivity | lia].
Qed.

Lemma updateCart_all_or_nothing_witness :
  db_carts (CartRoutes.putCart Store.hex24 (Sample.dbWith [mkLineItem Sample.idA 1])
              Sample.cartId (Some [Sample.goodItem; Sample.danglingItem])).2
    !! Sample.cartId
  = Some [mkLineItem Sample.idA 1]
  ∧ db_carts (CartRoutes.putCart Store.hex24 (Sample.dbWith [mkLineItem Sample.idA 1])
                Sample.cartId (Some [Sample.goodItem])).2
      !! Sample.cartId
    = Some [mkLineItem Sample.idB 2].
Proof.
  split.
  - apply (updateCart_all_or_nothing Store.hex24 (Sample.dbWith [mkLineItem Sample.idA 1])
             Sample.cartId [mkLineItem Sample.idA 1]
             [Sample.goodItem; Sample.danglingItem] (sample_findCart _)).
    apply Exists_cons_tl, Exists_cons_hd, danglingItem_invalid.
  - apply (updateCart_all_or_nothing Store.hex24 (Sample.dbWith [mkLineItem Sample.idA 1])
             Sample.cartId [mkLineItem Sample.idA 1]
             [Sample.goodItem] (sample_findCart _)).
    apply Forall_cons; split; [apply goodItem_valid | apply Forall_nil_2].
Defined.

Lemma removeProduct_idempotent_witness :
  ∃ cart',
    CartModel.removeProduct [mkLineItem Sample.idA 1] Sample.idB = inr cart'
    ∧ cart' = [mkLineItem Sample.idA 1].
Proof.
  destruct (removeProduct_idempotent Store.hex24 (Sample.dbWith [mkLineItem Sample.idA 1])
              Sample.cartId Sample.idB [mkLineItem Sample.idA 1] (sample_findCart _))
    as (cart' & Hrm & _ & _ & _ & Hsame & _).
  exists cart'. split; [exact Hrm|]. apply Hsame.
  intros Hin. apply list_elem_of_singleton in Hin. discriminate.
Defined.

Lemma getCart_keeps_dangling_lines_witness :
  ∃ items,
    CartRoutes.getCart Store.hex24 (Sample.dbWith [mkLineItem Sample.idGone 4]) Sample.cartId
    = mkResponse 200 (Some (Populated items))
    ∧ mkPopulatedItem None 4 ∈ items.
Proof.
  destruct (getCart_keeps_dangling_lines Store.hex24
              (Sample.dbWith [mkLineItem Sample.idGone 4]) Sample.cartId
              [mkLineItem Sample.idGone 4] (sample_findCart _))
    as (items & Hresp & _ & Hkept).
  exists items. split; [exact Hresp|].
  apply (Hkept (mkLineItem Sample.idGone 4)); [left|].
  intros p Hin. apply elem_of_cons in Hin as [->|Hin]; [discriminate|].
  apply list_elem_of_singleton in Hin as ->. discriminate.
Defined.

(** C6: the quantity check of POST /api/carts/:cid/product/:pid lets 0 and a
    non-numeric value through: both are replaced by 1 before the check,
    the handler answers 200 and the cart gains one unit.  A negative
    number is rejected with 400, and so is 0 by the sibling
    PUT /api/carts/:cid/products/:pid. *)
Theorem postCartProduct_accepts_zero_quantity :
  CartRoutes.postCartProduct Store.hex24 (Sample.dbWith []) Sample.cartId Sample.idA (JInt 0)
  = (mkResponse 200 (Some (Populated [mkPopulatedItem (Some Sample.productA) 1])),
     Sample.dbWith [mkLineItem Sample.idA 1])
  ∧ CartRoutes.postCartProduct Store.hex24 (Sample.dbWith []) Sample.cartId Sample.idA
      (JStr "abc")
    = (mkResponse 200 (Some (Populated [mkPopulatedItem (Some Sample.productA) 1])),
       Sample.dbWith [mkLineItem Sample.idA 1])
  ∧ CartRoutes.postCartProduct Store.hex24 (Sample.dbWith []) Sample.cartId Sample.idA
      (JInt (-3))
    = (mkResponse 400 None, Sample.dbWith [])
  ∧ CartRoutes.putCartProduct Store.hex24 (Sample.dbWith [mkLineItem Sample.idA 1])
      Sample.cartId Sample.idA (JInt 0)
    = (mkResponse 400 None, Sample.dbWith [mkLineItem Sample.idA 1]).
Proof. repeat split; vm_compute; reflexivity. Qed.

(** ** Pagination *)

Lemma ceilDiv_bounds (a b : Z) :
  0 < b → (Catalog.ceilDiv a b - 1) * b < a ≤ Catalog.ceilDiv a b * b.
Proof.
  intros Hb. unfold Catalog.ceilDiv.
  pose proof (Z.div_mod (- a) b ltac:(lia)) as Hdm.
  pose proof (Z.mod_pos_bound (- a) b Hb) as Hmod.
  nia.
Qed.

(** The ceiling is the only integer within those bounds. *)
Lemma ceilDiv_unique (a b n : Z) :
  0 < b → (n - 1) * b < a ≤ n * b → n = Catalog.ceilDiv a b.
Proof.
  intros Hb Hn. pose proof (ceilDiv_bounds a b Hb) as Hc. nia.
Qed.

Lemma paginate_metadata (catalog : list Product) (f : Filter)
    (sort : option SortSpec) (page limit : Z) :
  let r := Catalog.paginate catalog f sort page limit in
  Catalog.pr_totalDocs r
    = Z.of_nat (length (List.filter (Catalog.matchesFilter f) catalog))
  ∧ Catalog.pr_totalPages r = Catalog.ceilDiv (Catalog.pr_totalDocs r) limit
  ∧ Catalog.pr_hasPrevPage r = (1 <? page)
  ∧ Catalog.pr_hasNextPage r = (page <? Catalog.pr_totalPages r)
  ∧ Catalog.pr_prevPage r
    = (if Catalog.pr_hasPrevPage r then Some (page - 1) else None)
  ∧ Catalog.pr_nextPage r
    = (if Catalog.pr_hasNextPage r then Some (page + 1) else None)
  ∧ Catalog.pr_page r = page.
Proof. cbn. repeat split; reflexivity. Qed.


(** The listing scenario: seven laptops, five per page, dearest first. *)
Example listing_scenario :
  let res := ProductListing.getProducts (Sample.productB :: Sample.laptops)
               Sample.laptopsDescending in
  p_id <$> lr_payload res = ["laptop-7"; "laptop-6"; "laptop-5"; "laptop-4"; "laptop-3"]
  ∧ lr_totalDocs res = 7
  ∧ lr_totalPages res = 2
  ∧ lr_hasNextPage res = true
  ∧ lr_nextPage res = Some 2
  ∧ lr_prevLink res = None
  ∧ lr_nextLink res
    = Some [("page", "2"); ("limit", "5"); ("sort", "desc"); ("category", "Laptops")].
Proof. vm_compute. repeat split; reflexivity. Qed.


(** ** The cart view *)

Lemma nearestHundredths_rounds (m : positive) (e : Z) :
  roundsToHundredths m e (Double.nearestHundredths m e).
Proof.
  unfold roundsToHundredths, numerator, denominator, Double.nearestHundredths.
  destruct e as [|p|p]; cbv beta iota.
  - change (Z.max 0 0) with 0. change (Z.max (- 0) 0) with 0.
    rewrite Z.pow_0_r. lia.
  - rewrite (Z.max_l (Z.pos p) 0) by lia. rewrite (Z.max_r (- Z.pos p) 0) by lia.
    rewrite Z.pow_0_r. lia.
  - rewrite (Z.max_r (Z.neg p) 0) by lia. rewrite (Z.max_l (- Z.neg p) 0) by lia.
    change (- Z.neg p) with (Z.pos p). rewrite Z.pow_0_r.
    assert (0 < 2 ^ Z.pos p) as Hd by (apply Z.pow_pos_nonneg; lia).
    set (d := 2 ^ Z.pos p) in *.
    pose proof (Z.div_mod (2 * (100 * Z.pos m) + d) (2 * d) ltac:(lia)) as Hdm.
    pose proof (Z.mod_pos_bound (2 * (100 * Z.pos m) + d) (2 * d) ltac:(lia)) as Hmod.
    nia.
Qed.

Lemma atLeast1e21_spec (m : positive) (e : Z) :
  Double.atLeast1e21 m e = true ↔ 10 ^ 21 * denominator e ≤ numerator m e.
Proof.
  unfold Double.atLeast1e21, numerator, denominator.
  destruct e as [|p|p]; cbv beta iota.
  - change (Z.max 0 0) with 0. change (Z.max (- 0) 0) with 0.
    rewrite Z.leb_le, Z.pow_0_r. lia.
  - rewrite (Z.max_l (Z.pos p) 0) by lia. rewrite (Z.max_r (- Z.pos p) 0) by lia.
    rewrite Z.leb_le, Z.pow_0_r. lia.
  - rewrite (Z.max_r (Z.neg p) 0) by lia. rewrite (Z.max_l (- Z.neg p) 0) by lia.
    change (- Z.neg p) with (Z.pos p). rewrite Z.leb_le, Z.pow_0_r. lia.
Qed.

(** [toFixed2] meets the specification of rounding to two decimals. *)
Lemma toFixed2_rounded (x : Double.double) : roundedTo2 x (Double.toFixed2 x).
Proof.
  destruct x as [s|s| |s m e]; cbn [roundedTo2 Double.toFixed2]; try reflexivity.
  pose proof (atLeast1e21_spec m e) as Hspec.
  destruct (Double.atLeast1e21 m e).
  - split; [|done]. intros Hlt. assert (10 ^ 21 * denominator e ≤ numerator m e)
      by (by apply Hspec). lia.
  - split.
    + intros _. eexists. split; [reflexivity | apply nearestHundredths_rounds].
    + intros Hge. apply Hspec in Hge. discriminate.
Qed.

Lemma resolves_find (catalog : list Product) (li : LineItem) :
  resolves catalog li
  = bool_decide (is_Some (List.find (fun p => String.eqb (p_id p) (li_product li)) catalog)).
Proof.
  unfold resolves. induction catalog as [|p c IH]; cbn; [done|].
  destruct (String.eqb (p_id p) (li_product li)); cbn; done.
Qed.

Lemma productsWithSubtotal_details (catalog : list Product) (cart : Cart) :
  Forall2 (lineDetail catalog)
    (List.filter (resolves catalog) cart)
    (CartViewRoute.productsWithSubtotal (populate catalog cart)).
Proof.
  induction cart as [|li cart IH]; cbn; [constructor|].
  rewrite resolves_find.
  destruct (List.find _ catalog) as [p|] eqn:Hf; cbn.
  - constructor; [|exact IH].
    apply find_some in Hf as [Hin Hid]. apply String.eqb_eq in Hid.
    unfold lineDetail. cbn.
    split; [by apply list_elem_of_In|]. split; [done|]. split; [done|].
    apply toFixed2_rounded.
  - exact IH.
Qed.



(** ** The product broadcast *)

Section BroadcastFacts.

Variable isObjectId : string → bool.
Variable castNew : ProductData → option ProductFields.
Variable castUpdate : ProductFields → ProductData → option ProductFields.

Local Abbreviation step := (Products.step isObjectId castNew castUpdate).
Local Abbreviation mutationSucceeded :=
  (Products.mutationSucceeded isObjectId castNew castUpdate).

#[local] Instance createdAfter_total : Total Products.createdAfter.
Proof. intros p q. unfold Products.createdAfter. lia. Qed.

#[local] Instance createdAfter_trans : Transitive Products.createdAfter.
Proof. intros p q r. unfold Products.createdAfter. lia. Qed.

(** The snapshot holds every product of the catalog, each once, from the
    most recently created to the least. *)
Lemma findAllNewestFirst_full (catalog : list Product) :
  Products.findAllNewestFirst catalog ≡ₚ catalog
  ∧ StronglySorted Products.createdAfter (Products.findAllNewestFirst catalog).
Proof.
  split; [apply merge_sort_Permutation | apply StronglySorted_merge_sort; apply _].
Qed.

Lemma elem_of_ioEmit (srv : Server) (ev ev' : Event) (c : string) :
  (c, ev') ∈ Products.ioEmit srv ev ↔ c ∈ srv_clients srv ∧ ev' = ev.
Proof.
  unfold Products.ioEmit. rewrite (list_elem_of_fmap (B := string * Event)). split.
  - intros (c' & [= -> ->] & Hin). done.
  - intros [Hin ->]. by exists c.
Qed.

Lemma saveCart_products (db : Db) (cid : string) (cart : Cart) :
  db_products (Store.saveCart db cid cart) = db_products db.
Proof. reflexivity. Qed.

(** No cart handler touches the product collection. *)
Lemma cart_routes_keep_catalog (db : Db) (cid pid newId : string)
    (v : jsval) (items : option (list ItemInput)) :
  db_products (CartRoutes.createCart db newId).2 = db_products db
  ∧ db_products (CartRoutes.postCartProduct isObjectId db cid pid v).2 = db_products db
  ∧ db_products (CartRoutes.deleteCartProduct isObjectId db cid pid).2 = db_products db
  ∧ db_products (CartRoutes.putCart isObjectId db cid items).2 = db_products db
  ∧ db_products (CartRoutes.putCartProduct isObjectId db cid pid v).2 = db_products db
  ∧ db_products (CartRoutes.deleteCart isObjectId db cid).2 = db_products db.
Proof.
  unfold CartRoutes.createCart, CartRoutes.postCartProduct,
    CartRoutes.deleteCartProduct, CartRoutes.putCart, CartRoutes.putCartProduct,
    CartRoutes.deleteCart.
  repeat split; repeat case_match; reflexivity.
Qed.

(** A reaction either leaves the catalog alone and reports no successful
    mutation, or sends the snapshot to every connected socket. *)
Lemma step_unchanged_or_broadcast (srv : Server) (i : Products.Input) :
  (Products.catalogOf (step srv i).1 = Products.catalogOf srv
   ∧ mutationSucceeded srv i = false)
  ∨ (∀ c, c ∈ srv_clients (step srv i).1 →
       (c, EvProducts (Products.findAllNewestFirst (Products.catalogOf (step srv i).1)))
       ∈ (step srv i).2).
Proof.
  destruct i as [body newId now | pid body now | pid | newId | cid pid v | cid pid
                | cid items | cid pid v | cid | sid | sid data newId now | sid pid | sid];
    cbn [Products.step Products.mutationSucceeded].
  - unfold Products.postProduct.
    destruct (Products.saveNew castNew (Products.catalogOf srv) body newId now)
      as [[]|[doc catalog']]; cbn; try (left; done).
    right. intros c Hc. by apply elem_of_ioEmit.
  - unfold Products.putProduct.
    destruct (Products.findByIdAndUpdate isObjectId castUpdate (Products.catalogOf srv)
                pid (Products.stripImmutable body) now)
      as [[]|[[doc catalog']|]]; cbn; try (left; done).
    right. intros c Hc. by apply elem_of_ioEmit.
  - unfold Products.deleteProduct.
    destruct (Products.findByIdAndDelete isObjectId (Products.catalogOf srv) pid)
      as [[]|[[doc catalog']|]]; cbn; try (left; done).
    right. intros c Hc. by apply elem_of_ioEmit.
  - left. done.
  - left. split; [|done]. apply (cart_routes_keep_catalog (srv_db srv) cid pid "" v None).
  - left. split; [|done]. apply (cart_routes_keep_catalog (srv_db srv) cid pid "" JNull None).
  - left. split; [|done]. apply (cart_routes_keep_catalog (srv_db srv) cid "" "" JNull items).
  - left. split; [|done]. apply (cart_routes_keep_catalog (srv_db srv) cid pid "" v None).
  - left. split; [|done]. apply (cart_routes_keep_catalog (srv_db srv) cid "" "" JNull None).
  - left. done.
  - unfold Products.onAddProduct.
    destruct (Products.saveNew castNew (Products.catalogOf srv) data newId now)
      as [e|[doc catalog']]; cbn; [left; done|].
    right. intros c Hc. apply elem_of_app. left. by apply elem_of_ioEmit.
  - unfold Products.onDeleteProduct.
    destruct (Products.findByIdAndDelete isObjectId (Products.catalogOf srv) pid)
      as [e|[[doc catalog']|]]; cbn; try (left; done).
    right. intros c Hc. apply elem_of_app. left. by apply elem_of_ioEmit.
  - left. done.
Qed.

Lemma step_products_events (srv : Server) (i : Products.Input) (c : string) (ps : list Product) :
  (c, EvProducts ps) ∈ (step srv i).2 →
  ps = Products.findAllNewestFirst (Products.catalogOf (step srv i).1).
Proof.
  destruct i as [body newId now | pid body now | pid | newId | cid pid v | cid pid
                | cid items | cid pid v | cid | sid | sid data newId now | sid pid | sid];
    cbn [Products.step].
  - unfold Products.postProduct.
    destruct (Products.saveNew castNew (Products.catalogOf srv) body newId now)
      as [[]|[doc catalog']]; cbn; try (by intros ?%elem_of_nil).
    intros [_ [= ->]]%elem_of_ioEmit. done.
  - unfold Products.putProduct.
    destruct (Products.findByIdAndUpdate isObjectId castUpdate (Products.catalogOf srv)
                pid (Products.stripImmutable body) now)
      as [[]|[[doc catalog']|]]; cbn; try (by intros ?%elem_of_nil).
    intros [_ [= ->]]%elem_of_ioEmit. done.
  - unfold Products.deleteProduct.
    destruct (Products.findByIdAndDelete isObjectId (Products.catalogOf srv) pid)
      as [[]|[[doc catalog']|]]; cbn; try (by intros ?%elem_of_nil).
    intros [_ [= ->]]%elem_of_ioEmit. done.
  - by intros ?%elem_of_nil.
  - by intros ?%elem_of_nil.
  - by intros ?%elem_of_nil.
  - by intros ?%elem_of_nil.
  - by intros ?%elem_of_nil.
  - by intros ?%elem_of_nil.
  - cbn. intros [= _ ->]%list_elem_of_singleton. done.
  - unfold Products.onAddProduct.
    destruct (Products.saveNew castNew (Products.catalogOf srv) data newId now)
      as [e|[doc catalog']]; cbn.
    + by intros [=]%list_elem_of_singleton.
    + intros [[_ [= ->]]%elem_of_ioEmit | [=]%list_elem_of_singleton]%elem_of_app. done.
  - unfold Products.onDeleteProduct.
    destruct (Products.findByIdAndDelete isObjectId (Products.catalogOf srv) pid)
      as [e|[[doc catalog']|]]; cbn.
    + by intros [=]%list_elem_of_singleton.
    + intros [[_ [= ->]]%elem_of_ioEmit | [=]%list_elem_of_singleton]%elem_of_app. done.
    + by intros [=]%list_elem_of_singleton.
  - by intros ?%elem_of_nil.
Qed.

(** C9: whenever a reaction of the server changes the catalog, or answers
    a product create, update or delete with success, every connected socket
    is sent the [products] event carrying the whole catalog as it is after
    the change, most recently created first; every [products] event the
    server emits carries that whole list; and the seeding at start-up
    happens with no socket connected. *)
Theorem broadcast_after_mutation (srv : Server) (i : Products.Input) :
  (Products.catalogOf (step srv i).1 ≠ Products.catalogOf srv
   ∨ mutationSucceeded srv i = true →
   ∀ c, c ∈ srv_clients (step srv i).1 →
     (c, EvProducts (Products.findAllNewestFirst (Products.catalogOf (step srv i).1)))
     ∈ (step srv i).2)
  ∧ (∀ c ps, (c, EvProducts ps) ∈ (step srv i).2 →
     ps = Products.findAllNewestFirst (Products.catalogOf (step srv i).1)
     ∧ ps ≡ₚ Products.catalogOf (step srv i).1
     ∧ StronglySorted Products.createdAfter ps)
  ∧ (∀ db samples cartId, srv_clients (Products.startServer db samples cartId) = []).
Proof.
  split; [|split].
  - intros Hmut. destruct (step_unchanged_or_broadcast srv i) as [[Hsame Hfail]|Hb];
      [|exact Hb].
    destruct Hmut as [Hne|Hok]; [done | congruence].
  - intros c ps Hin. apply step_products_events in Hin as ->.
    split; [done|]. apply findAllNewestFirst_full.
  - reflexivity.
Qed.

End BroadcastFacts.

Lemma broadcast_after_mutation_witness :
  ("socket-1", EvProducts [Sample.productC; Sample.productB; Sample.productA])
  ∈ (Products.step Store.hex24 Sample.castAll Sample.castOver Sample.server
       (Products.HttpPostProduct Sample.dataC Sample.idC 3000)).2.
Proof.
  pose proof (proj1 (broadcast_after_mutation Store.hex24 Sample.castAll Sample.castOver
                       Sample.server
                       (Products.HttpPostProduct Sample.dataC Sample.idC 3000))
                (or_intror eq_refl) "socket-1" ltac:(left)) as Hsent.
  exact Hsent.
Defined.

(** ** Decimal text and [parseInt] *)

Lemma digits_string_of_uint (acc : Z) (d : Decimal.uint) :
  JS.digits 10 (Some acc) (DecimalString.NilEmpty.string_of_uint d)
  = Some (uintValue acc d).
Proof.
  revert acc. induction d; intros acc; cbn [DecimalString.NilEmpty.string_of_uint uintValue];
    [reflexivity | ..]; exact (IHd _).
Qed.

Lemma digits_string_of_uint_start (d : Decimal.uint) :
  d ≠ Decimal.Nil →
  JS.digits 10 None (DecimalString.NilEmpty.string_of_uint d) = Some (uintValue 0 d).
Proof.
  destruct d; [done | ..]; intros _; exact (digits_string_of_uint _ _).
Qed.

Lemma uintValue_of_uint_acc (d : Decimal.uint) (acc : positive) :
  uintValue (Zpos acc) d = Zpos (Pos.of_uint_acc d acc).
Proof.
  revert acc. induction d; intros acc; cbn [uintValue Pos.of_uint_acc];
    [reflexivity | ..]; rewrite <- IHd; f_equal; lia.
Qed.

Lemma uintValue_of_uint (d : Decimal.uint) :
  uintValue 0 d = Z.of_N (Pos.of_uint d).
Proof.
  induction d; cbn [uintValue Pos.of_uint]; [reflexivity | exact IHd | ..];
    exact (uintValue_of_uint_acc _ _).
Qed.

Lemma parseIntStr_string_of_uint (d : Decimal.uint) :
  JS.parseIntStr (DecimalString.NilEmpty.string_of_uint d)
  = (fun m => 1 * m) <$> JS.digits 10 None (DecimalString.NilEmpty.string_of_uint d).
Proof.
  destruct d as [|d|d|d|d|d|d|d|d|d|d]; [reflexivity | ..];
    destruct d; reflexivity.
Qed.

Lemma parseIntStr_minus_string_of_uint (d : Decimal.uint) :
  JS.parseIntStr (String "-" (DecimalString.NilEmpty.string_of_uint d))
  = (fun m => -1 * m) <$> JS.digits 10 None (DecimalString.NilEmpty.string_of_uint d).
Proof.
  destruct d as [|d|d|d|d|d|d|d|d|d|d]; [reflexivity | ..];
    destruct d; reflexivity.
Qed.

(** [parseInt] reads the decimal text of an integer back. *)
Lemma parseIntStr_showZ (n : Z) : JS.parseIntStr (showZ n) = Some n.
Proof.
  destruct n as [|p|p]; [reflexivity | |]; unfold showZ;
    cbn [Z.to_int DecimalString.NilZero.string_of_int];
    pose proof (DecimalPos.Unsigned.to_uint_nonnil p) as Hnn;
    pose proof (DecimalPos.Unsigned.of_to p) as Hof;
    unfold DecimalString.NilZero.string_of_uint;
    destruct (Pos.to_uint p) eqn:Hd; try done.
  all: rewrite <- Hd in *.
  all: rewrite ?parseIntStr_string_of_uint, ?parseIntStr_minus_string_of_uint.
  all: rewrite digits_string_of_uint_start, uintValue_of_uint, Hof by done.
  all: reflexivity.
Qed.

(** ** More on the resolver of the listing endpoints *)

Lemma orDefault_cases (x : option Z) (d : Z) :
  (JS.orDefault x d = d ∧ (x = None ∨ x = Some 0))
  ∨ (∃ n, x = Some n ∧ n ≠ 0 ∧ JS.orDefault x d = n).
Proof.
  unfold JS.orDefault. destruct x as [n|]; [|left; auto].
  destruct (Z.eqb_spec n 0) as [->|Hn]; [left; auto | right; eauto].
Qed.

(** X1: the two listing handlers resolve the same specification exactly
    when neither [limit] nor [page] reads as a negative integer. *)
Theorem listing_handlers_agree_iff (q : Query) :
  View.resolve q = Api.resolve q ↔ ¬ negativePaging q.
Proof.
  unfold negativePaging. split.
  - intros Heq. assert (View.limit q = Api.limit q ∧ View.page q = Api.page q) as [Hl Hp].
    { unfold View.resolve, Api.resolve in Heq. by injection Heq. }
    unfold View.limit, Api.limit in Hl. unfold View.page, Api.page in Hp.
    intros [(n & Hn & Hneg)|(n & Hn & Hneg)].
    + rewrite Hn in Hl. unfold JS.orDefault in Hl.
      destruct (Z.eqb_spec n 0); lia.
    + rewrite Hn in Hp. unfold JS.orDefault in Hp.
      destruct (Z.eqb_spec n 0); lia.
  - intros Hnon. apply view_resolve_eq.
    + unfold View.limit.
      destruct (orDefault_cases (JS.parseInt (q_limit q)) 10)
        as [[-> _]|(n & Hn & Hne & ->)]; [lia|].
      destruct (Z_lt_le_dec n 0); [|lia]. exfalso. apply Hnon. left. eauto.
    + unfold View.page.
      destruct (orDefault_cases (JS.parseInt (q_page q)) 1)
        as [[-> _]|(n & Hn & Hne & ->)]; [lia|].
      destruct (Z_lt_le_dec n 0); [|lia]. exfalso. apply Hnon. right. eauto.
Qed.

Lemma queryOfLink_buildQueryString (q : Query) (limit pageNum : Z) :
  queryOfLink (ProductListing.buildQueryString q limit pageNum)
  = mkQuery (if limit =? 10 then None else Some (showZ limit))
      (Some (showZ pageNum))
      (if JS.truthy (q_sort q) then q_sort q else None)
      (if JS.truthy (q_query q) then q_query q else None)
      (if JS.truthy (q_category q) then q_category q else None)
      (q_status q).
Proof.
  destruct q as [l p so qu cat st]. unfold ProductListing.buildQueryString.
  cbn [q_sort q_query q_category q_status].
  destruct (limit =? 10);
    destruct so as [so|]; cbn [JS.truthy default negb]; try destruct (String.eqb so "");
    destruct qu as [qu|]; cbn [JS.truthy default negb]; try destruct (String.eqb qu "");
    destruct cat as [cat|]; cbn [JS.truthy default negb]; try destruct (String.eqb cat "");
    destruct st as [st|]; reflexivity.
Qed.

Lemma buildFilter_dropped_empties (l p so l' p' so' qu cat st : option string) :
  Api.buildFilter
    (mkQuery l p so (if JS.truthy qu then qu else None)
       (if JS.truthy cat then cat else None) st)
  = Api.buildFilter (mkQuery l' p' so' qu cat st).
Proof.
  unfold Api.buildFilter. cbn [q_category q_status q_query].
  destruct cat as [cat|]; cbn [JS.truthy negb]; [destruct (String.eqb cat "") eqn:Hc|];
    cbn [JS.truthy negb]; rewrite ?Hc; cbn [negb];
    (destruct qu as [qu|]; cbn [JS.truthy negb];
       [destruct (String.eqb qu "") eqn:Hq|]; cbn [JS.truthy negb];
       rewrite ?Hq; cbn [negb andb]; try reflexivity).
  all: destruct st; reflexivity.
Qed.

Lemma sortSpec_dropped_empty (l p l' p' so qu cat st qu' cat' st' : option string) :
  Api.sortSpec (mkQuery l p (if JS.truthy so then so else None) qu cat st)
  = Api.sortSpec (mkQuery l' p' so qu' cat' st').
Proof.
  unfold Api.sortSpec. cbn [q_sort]. destruct so as [so|]; [|reflexivity].
  cbn [JS.truthy]. destruct (String.eqb_spec so "") as [->|]; reflexivity.
Qed.

Lemma view_limit_nonzero (q : Query) : View.limit q ≠ 0.
Proof.
  unfold View.limit.
  destruct (orDefault_cases (JS.parseInt (q_limit q)) 10)
    as [[-> _]|(n & _ & Hne & ->)]; lia.
Qed.



Lemma trimStart_cases (s : string) :
  JS.trimStart s = "" ∨ ∃ c r, JS.trimStart s = String c r ∧ JS.isWhiteSpace c = false.
Proof.
  induction s as [|c r IH]; [by left|]. cbn [JS.trimStart].
  destruct (JS.isWhiteSpace c) eqn:Hc; [exact IH | right; eauto].
Qed.

Lemma trimEnd_keeps_head (c : ascii) (r : string) :
  JS.isWhiteSpace c = false → ∃ r', JS.trimEnd (String c r) = String c r'.
Proof.
  intros Hc. cbn [JS.trimEnd]. rewrite Hc. destruct (JS.trimEnd r); eauto.
Qed.

Lemma trimEnd_cons (c : ascii) (r : string) :
  JS.trimEnd (String c r)
  = match JS.trimEnd r with
    | EmptyString => if JS.isWhiteSpace c then EmptyString else String c EmptyString
    | r' => String c r'
    end.
Proof. reflexivity. Qed.

Lemma trimEnd_idempotent (s : string) : JS.trimEnd (JS.trimEnd s) = JS.trimEnd s.
Proof.
  induction s as [|c r IH]; [reflexivity|]. rewrite trimEnd_cons.
  destruct (JS.trimEnd r) as [|c' t] eqn:Ht.
  - destruct (JS.isWhiteSpace c) eqn:Hc; [reflexivity|]. cbn [JS.trimEnd]. by rewrite Hc.
  - rewrite trimEnd_cons, IH. reflexivity.
Qed.

(** Trimming twice is trimming once. *)
Lemma trim_idempotent (s : string) : JS.trim (JS.trim s) = JS.trim s.
Proof.
  unfold JS.trim. destruct (trimStart_cases s) as [->|(c & r & -> & Hc)]; [reflexivity|].
  destruct (trimEnd_keeps_head c r Hc) as [r' Hr']. rewrite Hr'.
  cbn [JS.trimStart]. rewrite Hc, <- Hr'. apply trimEnd_idempotent.
Qed.



(** ** More on the cart routes *)

Lemma parseInt_JInt (n : Z) : JSVal.parseInt (JInt n) = Some n.
Proof. exact (parseIntStr_showZ n). Qed.

Section CartRouteFacts.

Variable isObjectId : string → bool.





(** X8: a cart created by POST /api/carts is empty at both read
    endpoints: the JSON endpoint returns no items, the view no rows and a
    total of 0.00. *)
Theorem created_cart_is_empty (db : Db) (newId : string) :
  isObjectId newId = true →
  CartRoutes.getCart isObjectId (CartRoutes.createCart db newId).2 newId
  = mkResponse 200 (Some (Populated []))
  ∧ CartViewRoute.getCartView isObjectId (CartRoutes.createCart db newId).2 newId
    = RenderCart (mkCartView newId [] false (Double.FxDecimal false 0))
  ∧ Double.render (Double.FxDecimal false 0) = Some "0.00".
Proof.
  intros Hid. unfold CartRoutes.getCart, CartViewRoute.getCartView, CartRoutes.createCart,
    Store.findCart.
  cbn [snd Store.saveCart db_carts db_products]. rewrite Hid, lookup_insert_eq.
  repeat split; reflexivity.
Qed.

(** X9: the JSON endpoint and the view agree on which carts there are:
    one answers 200 exactly when the other renders the cart, and an error of
    one is the same error of the other. *)
Theorem cart_endpoints_agree (db : Db) (cid : string) :
  (res_status (CartRoutes.getCart isObjectId db cid) = 200%nat
   ↔ ∃ view, CartViewRoute.getCartView isObjectId db cid = RenderCart view)
  ∧ (∀ st, CartViewRoute.getCartView isObjectId db cid = RenderError st
           ↔ CartRoutes.getCart isObjectId db cid = mkResponse st None).
Proof.
  unfold CartRoutes.getCart, CartViewRoute.getCartView.
  destruct (Store.findCart isObjectId db cid) as [e|[cart|]]; cbn; split.
  all: try (split; [discriminate | by intros [? ?]]).
  all: try (split; [by eexists | done]).
  all: intros st; split; intros [=]; subst; done.
Qed.

(** X10: when none of a cart's products is left in the catalog, the view
    shows no rows and a total of 0.00, while the JSON endpoint still
    returns one item per line. *)
Theorem cart_of_deleted_products (db : Db) (cid : string) (cart : Cart) :
  Store.findCart isObjectId db cid = inr (Some cart) →
  Forall (fun li => resolves (db_products db) li = false) cart →
  CartViewRoute.getCartView isObjectId db cid
  = RenderCart (mkCartView cid [] false (Double.FxDecimal false 0))
  ∧ CartRoutes.getCart isObjectId db cid
    = mkResponse 200
        (Some (Populated ((fun li => mkPopulatedItem None (li_quantity li)) <$> cart))).
Proof.
  intros Hfind Hgone. unfold CartViewRoute.getCartView, CartRoutes.getCart.
  rewrite Hfind.
  assert (populate (db_products db) cart
          = (fun li => mkPopulatedItem None (li_quantity li)) <$> cart) as ->.
  { clear Hfind. induction Hgone as [|li c Hli _ IH]; [reflexivity|].
    cbn. rewrite <- IH. f_equal.
    rewrite resolves_find in Hli. apply bool_decide_eq_false in Hli.
    destruct (List.find _ (db_products db)); [|reflexivity]. exfalso. apply Hli. by eexists. }
  split; [|reflexivity].
  assert (CartViewRoute.productsWithSubtotal
            ((fun li => mkPopulatedItem None (li_quantity li)) <$> cart) = []) as ->.
  { clear. induction cart as [|li c IH]; [reflexivity | exact IH]. }
  reflexivity.
Qed.

End CartRouteFacts.

(** ** More on the product routes and the socket handlers *)

Section ProductRouteFacts.

Variable isObjectId : string → bool.
Variable castNew : ProductData → option ProductFields.
Variable castUpdate : ProductFields → ProductData → option ProductFields.

Local Abbreviation postProduct := (Products.postProduct castNew).
Local Abbreviation putProduct := (Products.putProduct isObjectId castUpdate).
Local Abbreviation deleteProduct := (Products.deleteProduct isObjectId).
Local Abbreviation getProduct := (ProductLookup.getProduct isObjectId).


(** X12: the socket messages [addProduct] and [deleteProduct] do what
    POST /api/products and DELETE /api/products/:pid do: they leave the
    same server and send the same events, followed by one reply to the
    requesting socket alone, the acknowledgement with the product on
    success and [productError] on failure. *)
Theorem socket_handlers_follow_routes (srv : Server) (sid pid newId : string)
    (data : ProductData) (now : Z) :
  Products.onAddProduct castNew srv sid data newId now
  = ((postProduct srv data newId now).1.2,
     ((postProduct srv data newId now).2
      ++ [(sid, socketReply EvProductAdded (postProduct srv data newId now).1.1)])%list)
  ∧ Products.onDeleteProduct isObjectId srv sid pid
    = ((deleteProduct srv pid).1.2,
       ((deleteProduct srv pid).2
        ++ [(sid, socketReply EvProductDeleted (deleteProduct srv pid).1.1)])%list).
Proof.
  split.
  - unfold Products.onAddProduct, Products.postProduct.
    destruct (Products.saveNew castNew (Products.catalogOf srv) data newId now)
      as [[]|[doc catalog']]; reflexivity.
  - unfold Products.onDeleteProduct, Products.deleteProduct.
    destruct (Products.findByIdAndDelete isObjectId (Products.catalogOf srv) pid)
      as [[]|[[doc catalog']|]]; reflexivity.
Qed.

Lemma find_app_fresh (catalog : list Product) (doc : Product) (id : string) :
  (∀ p, p ∈ catalog → p_id p ≠ id) →
  List.find (fun p => String.eqb (p_id p) id) (catalog ++ [doc])
  = List.find (fun p => String.eqb (p_id p) id) [doc].
Proof.
  induction catalog as [|p c IH]; intros Hfresh; [reflexivity|]. cbn.
  destruct (String.eqb_spec (p_id p) id) as [Heq|_].
  - exfalso. apply (Hfresh p); [left | done].
  - apply IH. intros p' Hin. apply Hfresh. by right.
Qed.

Lemma find_app_other (catalog : list Product) (doc : Product) (id : string) :
  p_id doc ≠ id →
  List.find (fun p => String.eqb (p_id p) id) (catalog ++ [doc])
  = List.find (fun p => String.eqb (p_id p) id) catalog.
Proof.
  intros Hne. induction catalog as [|p c IH]; cbn.
  - by destruct (String.eqb_spec (p_id doc) id).
  - destruct (String.eqb (p_id p) id); [reflexivity | exact IH].
Qed.

Lemma find_removeById_same (catalog : list Product) (id : string) :
  NoDup (p_id <$> catalog) →
  List.find (fun p => String.eqb (p_id p) id) (Products.removeById id catalog) = None.
Proof.
  induction catalog as [|p c IH]; cbn; [done|].
  intros [Hnin Hnd]%NoDup_cons.
  destruct (String.eqb_spec (p_id p) id) as [Heq|Hne].
  - destruct (List.find _ c) as [p'|] eqn:Hf; [|reflexivity].
    apply find_some in Hf as [Hin Hid%String.eqb_eq]. exfalso. apply Hnin.
    apply list_elem_of_fmap. exists p'. split; [congruence | by apply list_elem_of_In].
  - cbn. destruct (String.eqb_spec (p_id p) id); [done | by apply IH].
Qed.

Lemma find_removeById_other (catalog : list Product) (id id' : string) :
  id' ≠ id →
  List.find (fun p => String.eqb (p_id p) id') (Products.removeById id catalog)
  = List.find (fun p => String.eqb (p_id p) id') catalog.
Proof.
  intros Hne. induction catalog as [|p c IH]; cbn; [done|].
  destruct (String.eqb_spec (p_id p) id) as [Heq|Hnid].
  - destruct (String.eqb_spec (p_id p) id'); [congruence | reflexivity].
  - cbn. destruct (String.eqb (p_id p) id'); [reflexivity | exact IH].
Qed.

Lemma find_replaceById_same (catalog : list Product) (id : string) (old doc : Product) :
  p_id doc = id →
  List.find (fun p => String.eqb (p_id p) id) catalog = Some old →
  List.find (fun p => String.eqb (p_id p) id) (Products.replaceById id doc catalog)
  = Some doc.
Proof.
  intros Hdoc. induction catalog as [|p c IH]; cbn; [done|].
  destruct (String.eqb (p_id p) id) eqn:Heq; cbn.
  - intros _. rewrite Hdoc, String.eqb_refl. reflexivity.
  - rewrite Heq. exact IH.
Qed.

Lemma find_replaceById_other (catalog : list Product) (id id' : string) (doc : Product) :
  p_id doc = id → id' ≠ id →
  List.find (fun p => String.eqb (p_id p) id') (Products.replaceById id doc catalog)
  = List.find (fun p => String.eqb (p_id p) id') catalog.
Proof.
  intros Hdoc Hne. induction catalog as [|p c IH]; cbn; [done|].
  destruct (String.eqb_spec (p_id p) id) as [Heq|Hnid]; cbn.
  - destruct (String.eqb_spec (p_id doc) id'); [congruence|].
    destruct (String.eqb_spec (p_id p) id'); [congruence | reflexivity].
  - destruct (String.eqb (p_id p) id'); [reflexivity | exact IH].
Qed.




(** X16: the seeding at start-up only ever fills an empty collection: a
    catalog with products and a cart collection with carts are left as
    they are, and once the samples are in, seeding again changes nothing. *)
Theorem seeding_is_idempotent (db : Db) (samples samples' : list Product)
    (cartId cartId' : string) :
  (db_products db ≠ [] →
   db_products (Products.initializeSampleData db samples cartId) = db_products db)
  ∧ (db_carts db ≠ ∅ →
     db_carts (Products.initializeSampleData db samples cartId) = db_carts db)
  ∧ (samples ≠ [] →
     Products.initializeSampleData
       (Products.initializeSampleData db samples cartId) samples' cartId'
     = Products.initializeSampleData db samples cartId).
Proof.
  assert (Hlen : ∀ l : list Product, (Z.of_nat (length l) =? 0) = true ↔ l = []).
  { intros l. rewrite Z.eqb_eq. destruct l; cbn; [done | split; [lia | done]]. }
  assert (Hsize : ∀ m : gmap string Cart, (Z.of_nat (size m) =? 0) = true ↔ m = ∅).
  { intros m. rewrite Z.eqb_eq, <- map_size_empty_iff. lia. }
  assert (Hprod : ∀ l s : list Product, l ≠ [] →
            (if Z.of_nat (length l) =? 0 then (l ++ s)%list else l) = l).
  { intros l s Hl. destruct (Z.of_nat (length l) =? 0) eqn:E; [|done]. by apply Hlen in E. }
  assert (Hcart : ∀ (m : gmap string Cart) c, m ≠ ∅ →
            (if Z.of_nat (size m) =? 0 then <[c := []]> m else m) = m).
  { intros m c Hm. destruct (Z.of_nat (size m) =? 0) eqn:E; [|done]. by apply Hsize in E. }
  unfold Products.initializeSampleData. cbn [db_products db_carts].
  split; [by apply Hprod|]. split; [by apply Hcart|].
  intros Hs. f_equal.
  - apply Hprod. destruct (Z.of_nat (length (db_products db)) =? 0) eqn:E.
    + apply Hlen in E. rewrite E. done.
    + intros Hnil. rewrite Hnil in E. done.
  - apply Hcart. destruct (Z.of_nat (size (db_carts db)) =? 0) eqn:E.
    + apply insert_non_empty.
    + intros Hemp. rewrite Hemp in E. done.
Qed.

End ProductRouteFacts.

(** ** Instances of the properties above on the sample data *)

Lemma sample_catalog_fresh (id : string) :
  id ≠ Sample.idA → id ≠ Sample.idB →
  ∀ p, p ∈ Sample.catalog → p_id p ≠ id.
Proof.
  intros HA HB p Hin. apply elem_of_cons in Hin as [->|Hin]; [done|].
  apply list_elem_of_singleton in Hin as ->. done.
Qed.





Lemma created_cart_is_empty_witness :
  CartRoutes.getCart Store.hex24 (CartRoutes.createCart (Sample.dbWith []) Sample.idGone).2
    Sample.idGone
  = mkResponse 200 (Some (Populated [])).
Proof.
  apply (created_cart_is_empty Store.hex24 (Sample.dbWith []) Sample.idGone). reflexivity.
Defined.

Lemma cart_of_deleted_products_witness :
  CartViewRoute.getCartView Store.hex24 (Sample.dbWith [mkLineItem Sample.idGone 4])
    Sample.cartId
  = RenderCart (mkCartView Sample.cartId [] false (Double.FxDecimal false 0)).
Proof.
  apply (cart_of_deleted_products Store.hex24 (Sample.dbWith [mkLineItem Sample.idGone 4])
           Sample.cartId [mkLineItem Sample.idGone 4] (sample_findCart _)).
  apply Forall_cons; split; [reflexivity | apply Forall_nil_2].
Defined.




Lemma seeding_is_idempotent_witness :
  db_products (Products.initializeSampleData (Sample.dbWith []) [Sample.productC] Sample.idGone)
  = db_products (Sample.dbWith []).
Proof.
  apply (seeding_is_idempotent (Sample.dbWith []) [Sample.productC] [] Sample.idGone
           Sample.idGone).
  discriminate.
Defined.

Lemma listing_handlers_agree_iff_witness :
  View.resolve Sample.audioQuery = Api.resolve Sample.audioQuery.
Proof.
  apply (listing_handlers_agree_iff Sample.audioQuery).
  intros [(n & Hn & Hneg)|(n & Hn & _)]; vm_compute in Hn;
    [injection Hn as <-; lia | discriminate].
Defined.

Lemma cart_endpoints_agree_witness :
  ∃ view,
    CartViewRoute.getCartView Store.hex24 (Sample.dbWith Sample.scenarioCart) Sample.cartId
    = RenderCart view.
Proof.
  apply (cart_endpoints_agree Store.hex24 (Sample.dbWith Sample.scenarioCart) Sample.cartId).
  reflexivity.
Defined.
